(** * Gridlify: CSS grid templates and placements

    A shallow embedding of the gridlify modules

      - [src/lib/enum/css-measurments.js]   (module [Measurements])
      - [src/lib/modules/gap-validator.js]  (module [GapValidator])
      - [src/lib/modules/grid-generator.js] (module [GridGenerator])

    together with the part of JavaScript they run on (module [JS]: values,
    [typeof], truthiness, [ToString], [parseInt], [Array.prototype.join],
    thrown errors; module [Heap]: array objects passed by reference) and
    the part of the DOM they write to (module [DOM]).
    The two modules the generator imports but that are not part of the
    sources at hand, [row-column-validator.js] and [grid-validator.js], are
    modelled from their written specification (modules [RowColumnValidator]
    and [GridValidator]). *)

From Stdlib Require Import ZArith NArith Lia Ascii.
From stdpp Require Import base strings list gmap.

Local Open Scope Z_scope.

(* ===================================================================== *)
(** * The JavaScript fragment *)
(* ===================================================================== *)

Module JS.

(** ** Numbers

    A Number is represented by the data [Number::toString] is specified
    over: its sign and, when it is finite and not zero, the decimal integer
    [s] and the exponent of its shortest decimal form.  [Fin neg m e]
    denotes [(-1)^neg * m * 10^e]; [m] may carry trailing zeros,
    [toString] removes them.  Every IEEE double has such a form, so a
    statement about all [number]s covers all doubles. *)
Inductive number : Type :=
  | NaN
  | Inf (neg : bool)
  | Zero (neg : bool)
  | Fin (neg : bool) (m : positive) (e : Z).

(** ** Values: the primitives and arrays the library is called with. *)
#[warnings="-register-all"]
Inductive value : Type :=
  | VUndefined
  | VNull
  | VBool (b : bool)
  | VNum (n : number)
  | VStr (s : string)
  | VArr (elems : list value).

(** [typeof v] *)
Definition typeof (v : value) : string :=
  match v with
  | VUndefined => "undefined"
  | VNull => "object"
  | VBool _ => "boolean"
  | VNum _ => "number"
  | VStr _ => "string"
  | VArr _ => "object"
  end.

(** [ToBoolean]: what [if (v)], [!v] and [a && b] test. *)
Definition truthy (v : value) : bool :=
  match v with
  | VUndefined | VNull => false
  | VBool b => b
  | VNum NaN | VNum (Zero _) => false
  | VNum _ => true
  | VStr EmptyString => false
  | VStr _ => true
  | VArr _ => true
  end.

(** ** Decimal digits *)

Definition digit_char (d : N) : ascii := Ascii.ascii_of_N (48 + d).

Fixpoint digits_aux (fuel : nat) (n : N) (acc : list N) : list N :=
  match fuel with
  | O => acc
  | S fuel' =>
      if (n =? 0)%N then acc
      else digits_aux fuel' (n / 10)%N ((n mod 10)%N :: acc)
  end.

(** The decimal digits of [n], most significant first; none for [0]. *)
Definition digits_of (n : N) : list N :=
  digits_aux (S (N.to_nat (N.log2 n))) n [].

Definition digits_val (ds : list N) : N :=
  fold_left (fun acc d => (10 * acc + d)%N) ds 0%N.

Definition string_of_digits (ds : list N) : string :=
  String.string_of_list_ascii (map digit_char ds).

Definition zeros (n : nat) : string := string_of_digits (replicate n 0%N).

Fixpoint drop_zeros (ds : list N) : list N :=
  match ds with
  | d :: ds' => if (d =? 0)%N then drop_zeros ds' else ds
  | [] => []
  end.

Definition strip_trailing_zeros (ds : list N) : list N :=
  rev (drop_zeros (rev ds)).

(** ** [Number::toString] (radix 10), ECMA-262 6.1.6.1.20.

    For a finite non-zero value, [ds] are the [k] digits of [s] and
    [n = e + (number of digits of m)] is the position of the decimal point. *)
Definition number_to_string_pos (m : positive) (e : Z) : string :=
  let ds0 := digits_of (Npos m) in
  let ds := strip_trailing_zeros ds0 in
  let k := Z.of_nat (length ds) in
  let n := e + Z.of_nat (length ds0) in
  if (k <=? n) && (n <=? 21) then
    string_of_digits ds +:+ zeros (Z.to_nat (n - k))
  else if (0 <? n) && (n <=? 21) then
    string_of_digits (take (Z.to_nat n) ds) +:+ "." +:+
    string_of_digits (drop (Z.to_nat n) ds)
  else if (-6 <? n) && (n <=? 0) then
    "0." +:+ zeros (Z.to_nat (- n)) +:+ string_of_digits ds
  else
    let sign := if (n - 1 <? 0) then "-" else "+" in
    let ex := string_of_digits (digits_of (Z.to_N (Z.abs (n - 1)))) in
    match ds with
    | [d] => string_of_digits [d] +:+ "e" +:+ sign +:+ ex
    | d :: ds' =>
        string_of_digits [d] +:+ "." +:+ string_of_digits ds' +:+
        "e" +:+ sign +:+ ex
    | [] => ""
    end.

Definition number_to_string (x : number) : string :=
  match x with
  | NaN => "NaN"
  | Zero _ => "0"
  | Inf false => "Infinity"
  | Inf true => "-Infinity"
  | Fin false m e => number_to_string_pos m e
  | Fin true m e => "-" +:+ number_to_string_pos m e
  end.

(** ** [ToString], as applied by template literals and by [parseInt];
    on arrays it is [join(',')]. *)
Fixpoint toString (v : value) : string :=
  match v with
  | VUndefined => "undefined"
  | VNull => "null"
  | VBool true => "true"
  | VBool false => "false"
  | VNum x => number_to_string x
  | VStr s => s
  | VArr l =>
      String.concat ","
        ((fix elems (l : list value) : list string :=
            match l with
            | [] => []
            | VUndefined :: l' => "" :: elems l'
            | VNull :: l' => "" :: elems l'
            | v :: l' => toString v :: elems l'
            end) l)
  end.

(** [Array.prototype.join]: [undefined] and [null] elements print as the
    empty string, every other element through [ToString]. *)
Definition join_elem (v : value) : string :=
  match v with
  | VUndefined | VNull => ""
  | _ => toString v
  end.

Definition join (sep : string) (l : list value) : string :=
  String.concat sep (map join_elem l).

(** ** [parseInt(v)] with no radix, ECMA-262 19.2.5 *)

Definition is_white_space (c : ascii) : bool :=
  match c with
  | "009" | "010" | "011" | "012" | "013" | " " => true
  | _ => false
  end%char.

Fixpoint trim_start (s : string) : string :=
  match s with
  | String c s' => if is_white_space c then trim_start s' else s
  | EmptyString => EmptyString
  end.

(** The value of [c] as a digit of the given radix (10 or 16). *)
Definition digit_value (radix : N) (c : ascii) : option N :=
  let code := Ascii.N_of_ascii c in
  let d :=
    if (48 <=? code)%N && (code <=? 57)%N then Some (code - 48)%N
    else if (97 <=? code)%N && (code <=? 102)%N then Some (code - 87)%N
    else if (65 <=? code)%N && (code <=? 70)%N then Some (code - 55)%N
    else None in
  match d with
  | Some d => if (d <? radix)%N then Some d else None
  | None => None
  end.

(** Reads the longest prefix of [s] made of digits of [radix]; [acc] is
    the value read so far, [None] until a digit has been read. *)
Fixpoint read_digits (radix : N) (s : string) (acc : option N) : option N :=
  match s with
  | String c s' =>
      match digit_value radix c with
      | Some d =>
          read_digits radix s' (Some (radix * default 0%N acc + d)%N)
      | None => acc
      end
  | EmptyString => acc
  end.

Definition number_of_N (neg : bool) (n : N) : number :=
  match n with
  | N0 => Zero neg
  | Npos p => Fin neg p 0
  end.

Definition parseInt_string (s : string) : number :=
  let s1 := trim_start s in
  let '(neg, s2) :=
    match s1 with
    | String "-" r => (true, r)
    | String "+" r => (false, r)
    | _ => (false, s1)
    end%char in
  let '(radix, s3) :=
    match s2 with
    | String "0" (String "x" r) => (16%N, r)
    | String "0" (String "X" r) => (16%N, r)
    | _ => (10%N, s2)
    end%char in
  match read_digits radix s3 None with
  | None => NaN
  | Some n => number_of_N neg n
  end.

Definition parseInt (v : value) : number := parseInt_string (toString v).

(** ** Thrown errors: the kind of the error and its message.

    [Error] and [TypeError] are the constructors the sources throw with;
    [FormatError] and [RangeError] are the two further kinds of the error
    taxonomy of the specification. *)
Inductive error_kind : Type := Error | TypeError | FormatError | RangeError.

Record error : Type := mkError { kind : error_kind; message : string }.

(** A call either returns or throws. *)
Inductive result (A : Type) : Type :=
  | Return (a : A)
  | Throw (e : error).
Arguments Return {A} a.
Arguments Throw {A} e.

#[export] Instance result_ret : MRet result := @Return.
#[export] Instance result_bind : MBind result := fun A B k r =>
  match r with
  | Return a => k a
  | Throw e => Throw e
  end.

(** [v.join(sep)] on an arbitrary value: only arrays have the method. *)
Definition call_join (v : value) (sep : string) : result string :=
  match v with
  | VArr l => Return (join sep l)
  | _ => Throw (mkError TypeError "join is not a function")
  end.

(** [String.prototype.endsWith] *)
Definition endsWith (s suffix : string) : bool :=
  let n := String.length s in
  let k := String.length suffix in
  if (k <=? n)%nat then String.eqb (String.substring (n - k) k s) suffix
  else false.

(** A destructuring default [{ f = d }]: taken when the field is
    [undefined], which is also what an omitted field reads as. *)
Definition or_default (v d : value) : value :=
  match v with
  | VUndefined => d
  | _ => v
  end.

End JS.

Import JS.

(* ===================================================================== *)
(** * [css-measurments.js] *)
(* ===================================================================== *)

Module Measurements.

Definition PIXELS : string := "px".
Definition FR : string := "fr".
Definition PERCENT : string := "%".

(** [Object.values(Measurements)] *)
Definition values : list string := [PIXELS; FR; PERCENT].

End Measurements.

(** The argument objects of the generator: a field that is left out reads
    as [VUndefined]. *)
Record grid : Type := mkGrid {
  rows : value;
  columns : value;
  rowGap : value;
  columnGap : value
}.

Record positions : Type := mkPositions {
  startRow : value;
  endRow : value;
  startColumn : value;
  endColumn : value
}.

(* ===================================================================== *)
(** * [row-column-validator.js] *)
(* ===================================================================== *)

Module RowColumnValidator.

(** Modelled from the spec: [row-column-validator.js] is not among the
    sources.  "isString(value) -> bool: type predicate, no side effects,
    never fails." *)
Definition isString (v : value) : bool := String.eqb (typeof v) "string".

Definition is_sign_or_digit (c : ascii) : bool :=
  match c with
  | "+" | "-" | "0" | "1" | "2" | "3" | "4" | "5" | "6" | "7" | "8" | "9" =>
      true
  | _ => false
  end%char.

Fixpoint trim_sign_digits (s : string) : string :=
  match s with
  | String c s' => if is_sign_or_digit c then trim_sign_digits s' else s
  | EmptyString => EmptyString
  end.

(** Modelled from the spec: [row-column-validator.js] is not among the
    sources.  "hasCorrectSuffix(token) -> bool: true iff token (after
    trimming any leading sign/digits) ends with a member of
    MeasurementUnits." *)
Definition hasCorrectSuffix (token : string) : bool :=
  existsb (endsWith (trim_sign_digits token)) Measurements.values.

(** The recognized unit [token] ends with, the longest if several do. *)
Definition unit_of (token : string) : option string :=
  foldr (fun u best =>
           if endsWith token u then
             match best with
             | Some b =>
                 if (String.length b <? String.length u)%nat then Some u
                 else best
             | None => Some u
             end
           else best)
        None Measurements.values.

Definition numeric_prefix (token : string) : string :=
  match unit_of token with
  | Some u => String.substring 0 (String.length token - String.length u) token
  | None => token
  end.

(** Reads a run of decimal digits off the front of [s]. *)
Fixpoint read_run (s : string) : list N * string :=
  match s with
  | String c s' =>
      match digit_value 10 c with
      | Some d => let '(ds, r) := read_run s' in (d :: ds, r)
      | None => ([], s)
      end
  | EmptyString => ([], EmptyString)
  end.

(** A decimal numeral, [sign? digits (. digits)?] or [sign? . digits],
    read as the number it denotes; [None] when [s] is not one. *)
Definition parse_real (s : string) : option number :=
  let '(neg, s1) :=
    match s with
    | String "-" r => (true, r)
    | String "+" r => (false, r)
    | _ => (false, s)
    end%char in
  let '(ip, s2) := read_run s1 in
  let '(fp, s3) :=
    match s2 with
    | String "." r => read_run r
    | _ => ([], s2)
    end%char in
  match s3, ip ++ fp with
  | EmptyString, _ :: _ =>
      Some match digits_val (ip ++ fp) with
           | N0 => Zero neg
           | Npos m => Fin neg m (- Z.of_nat (length fp))
           end
  | _, _ => None
  end.

(** [0 <= x] *)
Definition nonnegative (x : number) : bool :=
  match x with
  | Zero _ | Fin false _ _ | Inf false => true
  | _ => false
  end.

(** Modelled from the spec: [row-column-validator.js] is not among the
    sources.  "isPositiveNumber(token) -> bool: true iff the numeric
    prefix of token (everything before the recognized suffix) parses as a
    real number and is >= 0.  Negative or non-numeric prefixes fail." *)
Definition isPositiveNumber (token : string) : bool :=
  match parse_real (numeric_prefix token) with
  | Some x => nonnegative x
  | None => false
  end.

(** The three checks on one token, first violation first. *)
Definition validate_token (v : value) : result unit :=
  match v with
  | VStr token =>
      if negb (hasCorrectSuffix token) then
        Throw (mkError FormatError "Value must end with a valid CSS measurement")
      else if negb (isPositiveNumber token) then
        Throw (mkError RangeError "Value must be a positive number followed by a valid CSS measurement")
      else Return tt
  | _ => Throw (mkError TypeError "Value must be a string")
  end.

(** Modelled from the spec: [row-column-validator.js] is not among the
    sources.  "validate(tokenOrList): fails with a type error if the
    input is not a string (or, for list form, not a sequence of strings);
    fails with a format error if any element does not satisfy
    hasCorrectSuffix; fails with a range error if any element does not
    satisfy isPositiveNumber.  Succeeds silently (no return value)
    otherwise."  Errors are fail-fast: the first violation wins. *)
Definition validate (tokenOrList : value) : result unit :=
  match tokenOrList with
  | VArr l => foldr (fun v rest => validate_token v ;; rest) (Return tt) l
  | v => validate_token v
  end.

End RowColumnValidator.

(* ===================================================================== *)
(** * [gap-validator.js] *)
(* ===================================================================== *)

(** [class GapValidator extends RowColumnValidator]: [hasCorrectSuffix]
    and [isPositiveNumber] are the inherited methods. *)
Module GapValidator.

Definition validate (gap : value) : result unit :=
  match gap with
  | VStr s =>
      if negb (RowColumnValidator.hasCorrectSuffix s) then
        Throw (mkError TypeError
                 "Gap value must end with a valid CSS measurement")
      else if negb (RowColumnValidator.isPositiveNumber s) then
        Throw (mkError TypeError
                 "Gap values must be positvie numbers followed by a valid CSS measurement")
      else Return tt
  | _ => Throw (mkError TypeError "Gap value must be a string")
  end.

End GapValidator.

(* ===================================================================== *)
(** * [grid-validator.js] *)
(* ===================================================================== *)

Module GridValidator.

(** Modelled from the spec: [grid-validator.js] is not among the sources.
    "isString(value) -> bool: shared type predicate used by generator-side
    guards before DOM identifier use." *)
Definition isString (v : value) : bool := RowColumnValidator.isString v.

(** Modelled from the spec: [grid-validator.js] is not among the sources.
    "validateAllParams({rows, columns, rowGap, columnGap}): delegates rows
    and columns to the track-list validation rule, rowGap/columnGap to the
    gap validation rule; fails with whichever underlying error the first
    failing field raises (fail-fast, no aggregation of multiple errors)." *)
Definition validateAllParams (g : grid) : result unit :=
  RowColumnValidator.validate (rows g) ;;
  RowColumnValidator.validate (columns g) ;;
  GapValidator.validate (rowGap g) ;;
  GapValidator.validate (columnGap g).

(** A field is present when it is not [undefined]. *)
Definition present (v : value) : bool :=
  match v with
  | VUndefined => false
  | _ => true
  end.

Definition validate_position (v : value) : result unit :=
  if present v && negb (String.eqb (typeof v) "number") then
    Throw (mkError TypeError "Position values must be numbers")
  else Return tt.

(** Modelled from the spec: [grid-validator.js] is not among the sources.
    "validatePositions({startRow, endRow, startColumn, endColumn}) ->
    validated copy: for each present field, validates it is a number
    (fails with a type error otherwise); returns the structure unchanged.
    This operation is a pass-through validator, not a normalizer." *)
Definition validatePositions (p : positions) : result positions :=
  validate_position (startRow p) ;;
  validate_position (endRow p) ;;
  validate_position (startColumn p) ;;
  validate_position (endColumn p) ;;
  Return p.

End GridValidator.

(* ===================================================================== *)
(** * The DOM the generator writes to *)
(* ===================================================================== *)

Module DOM.

Definition element : Type := positive.

(** One assignment [el.style.property = value]. *)
Record style_write : Type := mkWrite {
  target : element;
  property : string;
  written : string
}.

(** The document: which element a selector selects (none when
    [querySelector] returns [null]; selectors are taken to be well
    formed), the inline style of every element, and the assignments made
    to styles so far, oldest first. *)
Record document : Type := mkDocument {
  selected : gmap string element;
  styles : gmap element (gmap string string);
  sink : list style_write
}.

(** A method that may write to the document: it returns or throws, and
    leaves a document behind either way. *)
Definition dom (A : Type) : Type := document -> result A * document.

#[export] Instance dom_ret : MRet dom := fun A a doc => (Return a, doc).
#[export] Instance dom_bind : MBind dom := fun A B k m doc =>
  match m doc with
  | (Return a, doc') => k a doc'
  | (Throw e, doc') => (Throw e, doc')
  end.

(** A validator call inside such a method. *)
Definition lift {A : Type} (r : result A) : dom A := fun doc => (r, doc).

Definition throw {A : Type} (e : error) : dom A := fun doc => (Throw e, doc).

(** The write [el.style[prop] = val] as the generator sees it: the value
    is kept as it was given (what the style object makes of a value is
    not modelled) and the selectors go on selecting what they selected. *)
Definition write_style (el : element) (prop val : string)
    (doc : document) : document :=
  {| selected := selected doc;
     styles := <[el := <[prop := val]> (default ∅ (styles doc !! el))]>
                 (styles doc);
     sink := sink doc ++ [mkWrite el prop val] |}.

(** [document.querySelector(id).style.prop = rhs]: the element is looked
    up first ([querySelector] takes the string form of its argument, and
    reading [.style] off [null] throws), then the right-hand side is
    evaluated, then the style is written. *)
Definition assign_style (id : value) (prop : string) (rhs : result string)
    : dom unit := fun doc =>
  match selected doc !! toString id with
  | None =>
      (Throw (mkError TypeError "Cannot read properties of null"), doc)
  | Some el =>
      match rhs with
      | Return val => (Return tt, write_style el prop val doc)
      | Throw e => (Throw e, doc)
      end
  end.

End DOM.

Import DOM.

(* ===================================================================== *)
(** * [grid-generator.js] *)
(* ===================================================================== *)

Module GridGenerator.

Definition nl : string := String "010"%char EmptyString.

(** The argument of [getGridCss] and [setGrid] with its defaults taken:
    [{ rows = ['100%'], columns = ['100%'], rowGap = '0px',
       columnGap = '0px' }]. *)
Definition with_defaults (g : grid) : grid :=
  {| rows := or_default (rows g) (VArr [VStr "100%"]);
     columns := or_default (columns g) (VArr [VStr "100%"]);
     rowGap := or_default (rowGap g) (VStr "0px");
     columnGap := or_default (columnGap g) (VStr "0px") |}.

Definition getGridCss (g : grid) : result string :=
  let gridParams := with_defaults g in
  GridValidator.validateAllParams gridParams ;;
  r ← call_join (rows gridParams) " ";
  c ← call_join (columns gridParams) " ";
  Return ("{ " +:+ nl +:+ "  display: grid;" +:+ nl +:+
          "  grid-template-rows: " +:+ r +:+ ";" +:+ nl +:+
          "  grid-template-columns: " +:+ c +:+ ";" +:+ nl +:+
          "  grid-row-gap: " +:+ toString (rowGap gridParams) +:+ ";" +:+ nl +:+
          "  grid-column-gap: " +:+ toString (columnGap gridParams) +:+ ";" +:+
          nl +:+ "}").

(** [`${parseInt(v)}`] *)
Definition int_text (v : value) : string := toString (VNum (parseInt v)).

(** [`${!e ? parseInt(s) : parseInt(e)}`] *)
Definition end_text (s e : value) : string :=
  if negb (truthy e) then int_text s else int_text e.

Definition getPositionCss (p : positions) : result string :=
  let positionTemplate := "" in
  let positions :=
    {| startRow := startRow p; startColumn := startColumn p;
       endRow := endRow p; endColumn := endColumn p |} in
  validatedPositions ← GridValidator.validatePositions positions;
  if truthy (startRow validatedPositions) &&
     truthy (startColumn validatedPositions)
  then
    Return ("{ grid-area: " +:+ int_text (startRow validatedPositions) +:+
            " / " +:+ int_text (startColumn validatedPositions) +:+
            " / " +:+ end_text (startRow validatedPositions)
                               (endRow validatedPositions) +:+
            " / " +:+ end_text (startColumn validatedPositions)
                               (endColumn validatedPositions) +:+
            "; }")
  else Return positionTemplate.

Definition setGrid (g : grid) (htmlIdentifier : value) : dom unit :=
  let gp := with_defaults g in
  lift (GridValidator.validateAllParams gp) ;;
  if negb (RowColumnValidator.isString htmlIdentifier) then
    throw (mkError Error "HTML element identifier must be a string")
  else if truthy htmlIdentifier then
    assign_style htmlIdentifier "display" (Return "grid") ;;
    assign_style htmlIdentifier "gridTemplateRows" (call_join (rows gp) " ") ;;
    assign_style htmlIdentifier "gridTemplateColumns"
      (call_join (columns gp) " ") ;;
    assign_style htmlIdentifier "gridRowGap" (Return (toString (rowGap gp))) ;;
    assign_style htmlIdentifier "gridColumnGap"
      (Return (toString (columnGap gp)))
  else mret tt.

Definition setPosition (p : positions) (htmlIdentifier : value) : dom unit :=
  validatedPositions ← lift (GridValidator.validatePositions
    {| startRow := startRow p; startColumn := startColumn p;
       endRow := endRow p; endColumn := endColumn p |});
  if truthy (startRow validatedPositions) &&
     truthy (startColumn validatedPositions)
  then
    assign_style htmlIdentifier "gridRow"
      (Return (int_text (startRow validatedPositions) +:+ " / " +:+
               end_text (startRow validatedPositions)
                        (endRow validatedPositions))) ;;
    assign_style htmlIdentifier "gridColumn"
      (Return (int_text (startColumn validatedPositions) +:+ " / " +:+
               end_text (startColumn validatedPositions)
                        (endColumn validatedPositions)))
  else mret tt.

Definition setRows (rows : value) (htmlIdentifier : value) : dom unit :=
  lift (RowColumnValidator.validate rows) ;;
  if GridValidator.isString htmlIdentifier then
    assign_style htmlIdentifier "gridTemplateRows" (call_join rows " ")
  else mret tt.

Definition setColumns (columns : value) (htmlIdentifier : value) : dom unit :=
  lift (RowColumnValidator.validate columns) ;;
  if GridValidator.isString htmlIdentifier then
    assign_style htmlIdentifier "gridTemplateColumns" (call_join columns " ")
  else mret tt.

Definition setRowGap (gap : value) (htmlIdentifier : value) : dom unit :=
  lift (GapValidator.validate gap) ;;
  if GridValidator.isString htmlIdentifier then
    assign_style htmlIdentifier "gridRowGap" (Return (toString gap))
  else mret tt.

Definition setColumnGap (gap : value) (htmlIdentifier : value) : dom unit :=
  lift (GapValidator.validate gap) ;;
  if GridValidator.isString htmlIdentifier then
    assign_style htmlIdentifier "gridColumnGap" (Return (toString gap))
  else mret tt.

End GridGenerator.

Import GridGenerator.

(* ===================================================================== *)
(** * The formats and input types the properties are stated with *)
(* ===================================================================== *)

(** The number whose shortest decimal form is the integer [z]; every
    integer below 2^53 in size is such a number. *)
Definition num (z : Z) : value :=
  VNum match z with
       | Z0 => Zero false
       | Zpos p => Fin false p 0
       | Zneg p => Fin true p 0
       end.

(** The grid block, as the specification writes it:
    [{ \n  display: grid;\n  grid-template-rows: <rows>;\n
       grid-template-columns: <columns>;\n  grid-row-gap: <rowGap>;\n
       grid-column-gap: <columnGap>;\n}]. *)
Definition grid_block (r c rg cg : string) : string :=
  "{ " +:+ nl +:+
  "  display: grid;" +:+ nl +:+
  "  grid-template-rows: " +:+ r +:+ ";" +:+ nl +:+
  "  grid-template-columns: " +:+ c +:+ ";" +:+ nl +:+
  "  grid-row-gap: " +:+ rg +:+ ";" +:+ nl +:+
  "  grid-column-gap: " +:+ cg +:+ ";" +:+ nl +:+
  "}".

(** The placement block, as the specification writes it:
    [{ grid-area: <r1> / <c1> / <r2> / <c2>; }]. *)
Definition placement_block (r1 c1 r2 c2 : string) : string :=
  "{ grid-area: " +:+ r1 +:+ " / " +:+ c1 +:+ " / " +:+ r2 +:+ " / " +:+
  c2 +:+ "; }".

(** A field of a placement spec: a number, or absent. *)
Definition placement_field (v : value) : bool :=
  match v with
  | VUndefined | VNum _ => true
  | _ => false
  end.

Definition placement_spec (p : positions) : bool :=
  placement_field (startRow p) && placement_field (endRow p) &&
  placement_field (startColumn p) && placement_field (endColumn p).

(** The six DOM-mutating operations with their first argument. *)
Inductive mutation : Type :=
  | SetGrid (g : grid)
  | SetPosition (p : positions)
  | SetRows (rows : value)
  | SetColumns (columns : value)
  | SetRowGap (gap : value)
  | SetColumnGap (gap : value).

Definition run (op : mutation) (htmlIdentifier : value) : dom unit :=
  match op with
  | SetGrid g => setGrid g htmlIdentifier
  | SetPosition p => setPosition p htmlIdentifier
  | SetRows r => setRows r htmlIdentifier
  | SetColumns c => setColumns c htmlIdentifier
  | SetRowGap gap => setRowGap gap htmlIdentifier
  | SetColumnGap gap => setColumnGap gap htmlIdentifier
  end.

(** The validation each operation starts with. *)
Definition validation (op : mutation) : result unit :=
  match op with
  | SetGrid g => GridValidator.validateAllParams (with_defaults g)
  | SetPosition p => GridValidator.validatePositions p ;; Return tt
  | SetRows r => RowColumnValidator.validate r
  | SetColumns c => RowColumnValidator.validate c
  | SetRowGap gap => GapValidator.validate gap
  | SetColumnGap gap => GapValidator.validate gap
  end.

(** A document in which the selector [#box] selects an element. *)
Definition box_document : document :=
  mkDocument {[ "#box" := 1%positive ]} ∅ [].

(* ===================================================================== *)
(** * Validation of arguments that live in the heap *)
(* ===================================================================== *)

(** A track list is an array object of the caller: the validators get a
    reference to it, and what they read is what the array holds when they
    read it.  This module has the validators over such references, so
    that what a validation leaves behind in the caller's arrays can be
    stated. *)
Module Heap.

Definition address : Type := positive.

(** An argument as it is passed: a primitive value, or a reference to an
    array object. *)
Inductive argument : Type :=
  | Primitive (v : value)
  | ArrayObject (a : address).

(** [{ rows, columns, rowGap, columnGap }] as [validateAllParams]
    receives it. *)
Record grid_arguments : Type := mkArguments {
  rows_arg : argument;
  columns_arg : argument;
  rowGap_arg : argument;
  columnGap_arg : argument
}.

(** A call that may read and write the array objects: it returns or
    throws, and leaves a heap behind. *)
Definition heap_op (A : Type) : Type :=
  gmap address (list value) -> result A * gmap address (list value).

#[export] Instance heap_ret : MRet heap_op := fun A a h => (Return a, h).
#[export] Instance heap_bind : MBind heap_op := fun A B k m h =>
  match m h with
  | (Return a, h') => k a h'
  | (Throw e, h') => (Throw e, h')
  end.

Definition pure {A : Type} (r : result A) : heap_op A := fun h => (r, h).

(** [array.length] *)
Definition length_at (a : address) : heap_op nat := fun h =>
  (Return (length (default [] (h !! a))), h).

(** [array[i]]: [undefined] past the end. *)
Definition element_at (a : address) (i : nat) : heap_op value := fun h =>
  (Return (default VUndefined (default [] (h !! a) !! i)), h).



(** The elements of the array at [a] from index [i] on, [n] of them, each
    read and checked in turn. *)
Fixpoint validate_elements (a : address) (i n : nat) : heap_op unit :=
  match n with
  | O => mret tt
  | S n' =>
      v ← element_at a i;
      pure (RowColumnValidator.validate_token v) ;;
      validate_elements a (S i) n'
  end.

(** Modelled from the spec: [row-column-validator.js] is not among the
    sources.  [validate(tokenOrList)] on an argument: a list is gone
    through element by element, first violation first; "succeeds silently
    (no return value) otherwise - validation is a gate, not a
    transform". *)
Definition validate_tracks (arg : argument) : heap_op unit :=
  match arg with
  | Primitive v => pure (RowColumnValidator.validate v)
  | ArrayObject a => n ← length_at a; validate_elements a 0 n
  end.

(** [GapValidator.validate(gap)] of [gap-validator.js] on an argument:
    [typeof] of an array object is ["object"]. *)
Definition validate_gap (arg : argument) : heap_op unit :=
  match arg with
  | Primitive v => pure (GapValidator.validate v)
  | ArrayObject _ =>
      pure (Throw (mkError TypeError "Gap value must be a string"))
  end.

(** Modelled from the spec: [grid-validator.js] is not among the sources.
    [validateAllParams]: rows and columns by the track-list rule, the
    gaps by the gap rule, the first failing field first. *)
Definition validateAllParams (g : grid_arguments) : heap_op unit :=
  validate_tracks (rows_arg g) ;;
  validate_tracks (columns_arg g) ;;
  validate_gap (rowGap_arg g) ;;
  validate_gap (columnGap_arg g).

End Heap.

Import Heap.

(** Lists of decimal digits, and those that do not start with a zero. *)
Definition all_digits (ds : list N) : Prop := Forall (fun d => (d < 10)%N) ds.

Definition leading_nonzero (ds : list N) : Prop :=
  match ds with
  | d :: _ => d <> 0%N
  | [] => True
  end.

(** What follows the digits [parseInt] reads: nothing, or a decimal point. *)
Definition stops (rest : string) : Prop :=
  rest = "" \/ exists r, rest = String "."%char r.

(** The integer a number truncates to (toward zero); none for [NaN] and
    the infinities. *)
Definition trunc (x : number) : option Z :=
  match x with
  | NaN | Inf _ => None
  | Zero _ => Some 0
  | Fin neg m e =>
      let a := if (0 <=? e) then Zpos m * 10 ^ e else Zpos m / 10 ^ (- e) in
      Some (if neg then - a else a)
  end.

(** The decimal numeral of an integer. *)
Definition Z_text (z : Z) : string :=
  match z with
  | Z0 => "0"
  | Zpos p => string_of_digits (digits_of (Npos p))
  | Zneg p => "-" +:+ string_of_digits (digits_of (Npos p))
  end.

(** A number whose text has no exponent: from 0.000001 up to, and not
    including, 1e21 in size. *)
Definition plain (x : number) : Prop :=
  match x with
  | Fin _ m e => 10 ^ (- e - 6) <= Zpos m < 10 ^ (21 - e)
  | _ => False
  end.

(** The numeral of the integer a number truncates to. *)
Definition trunc_text (x : number) : string :=
  match trunc x with
  | Some z => Z_text z
  | None => "NaN"
  end.

(** The first significant digit of [m], with the sign of the number. *)
Definition leading_digit (neg : bool) (m : positive) : Z :=
  let d := Z.of_N (hd 0%N (digits_of (Npos m))) in
  if neg then - d else d.

Definition integer_or_NaN (s : string) : Prop :=
  s = "NaN" \/ exists z : Z, s = Z_text z.

(** Whether an operation with a string identifier gets as far as an
    assignment, once its validation has passed: [setGrid] skips the empty
    identifier, [setPosition] a placement without both start values. *)
Definition attempts_write (op : mutation) (htmlIdentifier : value) : bool :=
  match op with
  | SetGrid _ => truthy htmlIdentifier
  | SetPosition p => truthy (startRow p) && truthy (startColumn p)
  | _ => true
  end.

(* ===================================================================== *)
(** * Properties *)
(* ===================================================================== *)

(** ** Calls worked out on concrete arguments *)

Example toString_fraction : toString (VNum (Fin false 19 (-1))) = "1.9".
Proof. reflexivity. Qed.

Example toString_small : toString (VNum (Fin false 5 (-7))) = "5e-7".
Proof. reflexivity. Qed.

Example toString_large : toString (VNum (Fin false 1 21)) = "1e+21".
Proof. reflexivity. Qed.

Example toString_below_large :
  toString (VNum (Fin false 12345 16)) = "123450000000000000000".
Proof. reflexivity. Qed.

Example toString_negative_exponent :
  toString (VNum (Fin true 12345 (-12))) = "-1.2345e-8".
Proof. reflexivity. Qed.

Example toString_nested_array :
  toString (VArr [VNum (Zero true); VNull; VArr [VStr "a"; VStr "b"]])
  = "0,,a,b".
Proof. reflexivity. Qed.

Example parseInt_hex : toString (VNum (parseInt (VStr "  -0x1fz"))) = "-31".
Proof. reflexivity. Qed.

Example getGridCss_negative_track :
  getGridCss (mkGrid (VArr [VStr "1fr"; VStr "-2fr"]) VUndefined VUndefined
                     VUndefined)
  = Throw (mkError RangeError
      "Value must be a positive number followed by a valid CSS measurement").
Proof. reflexivity. Qed.

Example getGridCss_single_token_rows :
  getGridCss (mkGrid (VStr "1fr") VUndefined VUndefined VUndefined)
  = Throw (mkError TypeError "join is not a function").
Proof. reflexivity. Qed.

Example getPositionCss_fractions :
  getPositionCss (mkPositions (VNum (Fin false 19 (-1)))
                              (VNum (Fin false 39 (-1)))
                              (VNum (Fin false 21 (-1)))
                              (VNum (Fin false 49 (-1))))
  = Return "{ grid-area: 1 / 2 / 3 / 4; }".
Proof. reflexivity. Qed.

(** ** What passes validation *)

Lemma validate_token_Return v :
  RowColumnValidator.validate_token v = Return tt ->
  exists s, v = VStr s.
Proof. destruct v; simpl; try discriminate. eauto. Qed.

Lemma validate_list_Return l :
  RowColumnValidator.validate (VArr l) = Return tt ->
  exists ss, l = map VStr ss.
Proof.
  simpl. induction l as [|v l IH]; intros H.
  - exists []. reflexivity.
  - simpl in H.
    destruct (RowColumnValidator.validate_token v) as [[]|e] eqn:Hv;
      [|discriminate].
    apply validate_token_Return in Hv as [s ->].
    destruct (IH H) as [ss ->]. exists (s :: ss). reflexivity.
Qed.

Lemma gap_validate_Return gap :
  GapValidator.validate gap = Return tt ->
  exists s, gap = VStr s /\
            RowColumnValidator.hasCorrectSuffix s = true /\
            RowColumnValidator.isPositiveNumber s = true.
Proof.
  destruct gap; simpl; try discriminate. intros H. exists s.
  destruct (RowColumnValidator.hasCorrectSuffix s); [|discriminate].
  destruct (RowColumnValidator.isPositiveNumber s); [|discriminate].
  auto.
Qed.

Lemma join_strings sep ss : join sep (map VStr ss) = String.concat sep ss.
Proof.
  unfold join. f_equal. induction ss as [|s ss IH]; simpl; [|rewrite IH];
    reflexivity.
Qed.

Lemma result_bind_Return {A B : Type} (r : result A) (k : A -> result B) b :
  r ≫= k = Return b -> exists a, r = Return a /\ k a = Return b.
Proof. destruct r as [a|e]; [eauto|discriminate]. Qed.

Lemma validateAllParams_Return g :
  GridValidator.validateAllParams g = Return tt ->
  RowColumnValidator.validate (rows g) = Return tt /\
  RowColumnValidator.validate (columns g) = Return tt /\
  GapValidator.validate (rowGap g) = Return tt /\
  GapValidator.validate (columnGap g) = Return tt.
Proof.
  unfold GridValidator.validateAllParams. intros H.
  apply result_bind_Return in H as ([] & H1 & H).
  apply result_bind_Return in H as ([] & H2 & H).
  apply result_bind_Return in H as ([] & H3 & H).
  auto.
Qed.

(** ** The grid block *)

(** C4: [getGridCss({})], every field left out, returns the grid block
    with [100%] for both templates and [0px] for both gaps. *)
Theorem getGridCss_all_defaults :
  getGridCss (mkGrid VUndefined VUndefined VUndefined VUndefined)
  = Return (grid_block "100%" "100%" "0px" "0px").
Proof. reflexivity. Qed.

(** C5: when the fields of a grid spec (its defaults taken, its track
    lists arrays) pass validation, [getGridCss] returns the grid block
    with the tracks of each list joined by one space and both gaps as they
    were given. *)
Theorem getGridCss_valid (g : grid) (rs cs : list value) :
  rows (with_defaults g) = VArr rs ->
  columns (with_defaults g) = VArr cs ->
  GridValidator.validateAllParams (with_defaults g) = Return tt ->
  exists (rs' cs' : list string) (rg cg : string),
    rs = map VStr rs' /\ cs = map VStr cs' /\
    rowGap (with_defaults g) = VStr rg /\
    columnGap (with_defaults g) = VStr cg /\
    getGridCss g
    = Return (grid_block (String.concat " " rs') (String.concat " " cs')
                         rg cg).
Proof.
  intros Hr Hc Hv. unfold getGridCss. rewrite Hv.
  apply validateAllParams_Return in Hv as (H1 & H2 & H3 & H4).
  rewrite Hr in H1 |- *. rewrite Hc in H2 |- *.
  apply validate_list_Return in H1 as [rs' ->].
  apply validate_list_Return in H2 as [cs' ->].
  apply gap_validate_Return in H3 as (rg & Hrg & _).
  apply gap_validate_Return in H4 as (cg & Hcg & _).
  exists rs', cs', rg, cg. rewrite Hrg, Hcg. simpl.
  rewrite !join_strings. auto.
Qed.

Lemma getGridCss_valid_example :
  exists (rs' cs' : list string) (rg cg : string),
    [VStr "1fr"; VStr "2fr"] = map VStr rs' /\ [VStr "50%"] = map VStr cs' /\
    VStr "10px" = VStr rg /\ VStr "5px" = VStr cg /\
    getGridCss (mkGrid (VArr [VStr "1fr"; VStr "2fr"]) (VArr [VStr "50%"])
                       (VStr "10px") (VStr "5px"))
    = Return (grid_block (String.concat " " rs') (String.concat " " cs')
                         rg cg).
Proof.
  apply (getGridCss_valid
           (mkGrid (VArr [VStr "1fr"; VStr "2fr"]) (VArr [VStr "50%"])
                   (VStr "10px") (VStr "5px"))); reflexivity.
Defined.

Example getGridCss_two_rows :
  getGridCss (mkGrid (VArr [VStr "1fr"; VStr "2fr"]) (VArr [VStr "50%"])
                     (VStr "10px") (VStr "5px"))
  = Return (grid_block "1fr 2fr" "50%" "10px" "5px").
Proof. reflexivity. Qed.

(** ** The gap validator *)

(** C2, as stated, fails: [validate] throws for a gap that is not a
    string, for one without a unit and for one with a negative number, but
    the three errors are of one and the same kind, [TypeError]. *)
Lemma gap_validate_kinds_not_distinct :
  exists e_type e_format e_range : error,
    GapValidator.validate (num 10) = Throw e_type /\
    GapValidator.validate (VStr "10") = Throw e_format /\
    GapValidator.validate (VStr "-1px") = Throw e_range /\
    kind e_format = kind e_type /\ kind e_range = kind e_type /\
    kind e_range = kind e_format.
Proof. do 3 eexists. repeat split. Qed.

(** C2, amended: [validate(gap)] throws a [TypeError] in each of the three
    cases, which differ by their message only: gap not a string, no
    recognized unit at the end, numeric prefix not a non-negative number;
    it returns exactly when none of the three applies. *)
Theorem gap_validate_TypeError (gap : value) :
  match GapValidator.validate gap with
  | Throw e =>
      kind e = TypeError /\
      ((typeof gap <> "string" /\ message e = "Gap value must be a string") \/
       (exists s, gap = VStr s /\
          RowColumnValidator.hasCorrectSuffix s = false /\
          message e = "Gap value must end with a valid CSS measurement") \/
       (exists s, gap = VStr s /\
          RowColumnValidator.hasCorrectSuffix s = true /\
          RowColumnValidator.isPositiveNumber s = false /\
          message e = "Gap values must be positvie numbers followed by a valid CSS measurement"))
  | Return _ =>
      exists s, gap = VStr s /\
        RowColumnValidator.hasCorrectSuffix s = true /\
        RowColumnValidator.isPositiveNumber s = true
  end.
Proof.
  destruct gap as [| |b|x|s|l]; simpl;
    try (split; [reflexivity|left; split; [discriminate|reflexivity]]).
  destruct (RowColumnValidator.hasCorrectSuffix s) eqn:Hs; simpl.
  - destruct (RowColumnValidator.isPositiveNumber s) eqn:Hp; simpl.
    + eauto.
    + split; [reflexivity|]. right; right. eauto.
  - split; [reflexivity|]. right; left. eauto.
Qed.

(** ** Placements *)

Lemma validate_position_field v :
  placement_field v = true -> GridValidator.validate_position v = Return tt.
Proof. destruct v; simpl; try discriminate; reflexivity. Qed.

Lemma validatePositions_spec p :
  placement_spec p = true -> GridValidator.validatePositions p = Return p.
Proof.
  unfold placement_spec, GridValidator.validatePositions.
  rewrite !andb_true_iff. intros [[[H1 H2] H3] H4].
  rewrite !validate_position_field by assumption. reflexivity.
Qed.

Lemma positions_eta p :
  {| startRow := startRow p; endRow := endRow p;
     startColumn := startColumn p; endColumn := endColumn p |} = p.
Proof. destruct p; reflexivity. Qed.

Lemma getPositionCss_spec p :
  placement_spec p = true ->
  getPositionCss p =
    if truthy (startRow p) && truthy (startColumn p) then
      Return (placement_block (int_text (startRow p)) (int_text (startColumn p))
                (end_text (startRow p) (endRow p))
                (end_text (startColumn p) (endColumn p)))
    else Return "".
Proof.
  intros Hp. unfold getPositionCss. rewrite positions_eta.
  rewrite validatePositions_spec by assumption. reflexivity.
Qed.

Lemma setPosition_spec p id :
  placement_spec p = true ->
  setPosition p id =
    if truthy (startRow p) && truthy (startColumn p) then
      assign_style id "gridRow"
        (Return (int_text (startRow p) +:+ " / " +:+
                 end_text (startRow p) (endRow p))) ;;
      assign_style id "gridColumn"
        (Return (int_text (startColumn p) +:+ " / " +:+
                 end_text (startColumn p) (endColumn p)))
    else mret tt.
Proof.
  intros Hp. unfold setPosition. rewrite positions_eta.
  rewrite validatePositions_spec by assumption. reflexivity.
Qed.




Example getPositionCss_start_only :
  getPositionCss (mkPositions (num 1) VUndefined (num 2) VUndefined)
  = Return "{ grid-area: 1 / 2 / 1 / 2; }".
Proof. reflexivity. Qed.

(** C3: for a placement spec (each field a number or absent) in which
    [startRow] or [startColumn] is absent, [getPositionCss] returns the
    empty string and throws nothing. *)
Theorem getPositionCss_start_absent (p : positions) :
  placement_spec p = true ->
  startRow p = VUndefined \/ startColumn p = VUndefined ->
  getPositionCss p = Return "".
Proof.
  intros Hp H. rewrite getPositionCss_spec by assumption.
  destruct H as [-> | ->]; simpl; [reflexivity|].
  destruct (truthy (startRow p)); reflexivity.
Qed.

Lemma getPositionCss_start_absent_example :
  getPositionCss (mkPositions VUndefined (num 3) VUndefined (num 4))
  = Return "".
Proof.
  apply (getPositionCss_start_absent
           (mkPositions VUndefined (num 3) VUndefined (num 4)));
    [reflexivity | left; reflexivity].
Defined.

(** C10: 0 is taken for absent.  A [startRow] or [startColumn] that is 0
    makes [getPositionCss] return the empty string and [setPosition]
    return without an assignment.  With both start values truthy, an
    [endRow] that is 0 is not rendered: the block of [getPositionCss] has
    the start row in its place, and [setPosition] assigns
    [gridRow = r1 / r1]; likewise for an [endColumn] that is 0. *)
Theorem zero_position_reads_as_absent (b : bool) :
  (forall (p : positions) (id : value) (doc : document),
     placement_spec p = true ->
     startRow p = VNum (Zero b) \/ startColumn p = VNum (Zero b) ->
     getPositionCss p = Return "" /\
     setPosition p id doc = (Return tt, doc)) /\
  (forall (x y : number) (ec id : value) (doc : document),
     truthy (VNum x) = true -> truthy (VNum y) = true ->
     placement_field ec = true ->
     let p := mkPositions (VNum x) (VNum (Zero b)) (VNum y) ec in
     let r1 := toString (VNum (parseInt (VNum x))) in
     let c1 := toString (VNum (parseInt (VNum y))) in
     let c2 := if truthy ec then toString (VNum (parseInt ec)) else c1 in
     getPositionCss p = Return (placement_block r1 c1 r1 c2) /\
     setPosition p id doc
     = (assign_style id "gridRow" (Return (r1 +:+ " / " +:+ r1)) ;;
        assign_style id "gridColumn" (Return (c1 +:+ " / " +:+ c2))) doc) /\
  (forall (x y : number) (er id : value) (doc : document),
     truthy (VNum x) = true -> truthy (VNum y) = true ->
     placement_field er = true ->
     let p := mkPositions (VNum x) er (VNum y) (VNum (Zero b)) in
     let r1 := toString (VNum (parseInt (VNum x))) in
     let c1 := toString (VNum (parseInt (VNum y))) in
     let r2 := if truthy er then toString (VNum (parseInt er)) else r1 in
     getPositionCss p = Return (placement_block r1 c1 r2 c1) /\
     setPosition p id doc
     = (assign_style id "gridRow" (Return (r1 +:+ " / " +:+ r2)) ;;
        assign_style id "gridColumn" (Return (c1 +:+ " / " +:+ c1))) doc).
Proof.
  split; [|split].
  - intros [sr er sc ec] id doc Hp H.
    rewrite getPositionCss_spec, setPosition_spec by assumption.
    cbn [startRow startColumn endRow endColumn] in *.
    destruct H as [-> | ->]; simpl; [auto|].
    destruct (truthy sr); auto.
  - intros x y ec id doc Hx Hy Hec. cbv zeta.
    rewrite getPositionCss_spec, setPosition_spec
      by (unfold placement_spec; simpl; rewrite Hec; reflexivity).
    cbn [startRow startColumn endRow endColumn]. rewrite Hx, Hy.
    unfold end_text, int_text. simpl negb.
    destruct (truthy ec); split; reflexivity.
  - intros x y er id doc Hx Hy Her. cbv zeta.
    rewrite getPositionCss_spec, setPosition_spec
      by (unfold placement_spec; simpl; rewrite Her; reflexivity).
    cbn [startRow startColumn endRow endColumn]. rewrite Hx, Hy.
    unfold end_text, int_text. simpl negb.
    destruct (truthy er); split; reflexivity.
Qed.

Lemma zero_position_reads_as_absent_example :
  (getPositionCss (mkPositions (num 0) (num 4) (num 1) VUndefined)
   = Return "" /\
   setPosition (mkPositions (num 0) (num 4) (num 1) VUndefined)
               (VStr "#box") box_document
   = (Return tt, box_document)) /\
  (getPositionCss (mkPositions (num 3) (num 0) (num 1) (num 2))
   = Return "{ grid-area: 3 / 1 / 3 / 2; }" /\
   setPosition (mkPositions (num 3) (num 0) (num 1) (num 2))
               (VStr "#box") box_document
   = (assign_style (VStr "#box") "gridRow" (Return "3 / 3") ;;
      assign_style (VStr "#box") "gridColumn" (Return "1 / 2"))
       box_document) /\
  (getPositionCss (mkPositions (num 3) VUndefined (num 1) (num 0))
   = Return "{ grid-area: 3 / 1 / 3 / 1; }" /\
   setPosition (mkPositions (num 3) VUndefined (num 1) (num 0))
               (VStr "#box") box_document
   = (assign_style (VStr "#box") "gridRow" (Return "3 / 3") ;;
      assign_style (VStr "#box") "gridColumn" (Return "1 / 1"))
       box_document).
Proof.
  destruct (zero_position_reads_as_absent false) as (H1 & H2 & H3).
  split; [|split].
  - apply (H1 (mkPositions (num 0) (num 4) (num 1) VUndefined));
      [reflexivity | left; reflexivity].
  - apply (H2 (Fin false 3 0) (Fin false 1 0) (num 2)); reflexivity.
  - apply (H3 (Fin false 3 0) (Fin false 1 0) VUndefined); reflexivity.
Defined.

Example getPositionCss_zero_end :
  getPositionCss (mkPositions (num 3) (num 0) (num 1) (num 0))
  = Return "{ grid-area: 3 / 1 / 3 / 1; }".
Proof. reflexivity. Qed.

Example setPosition_zero_end :
  sink (setPosition (mkPositions (num 3) (num 0) (num 1) VUndefined)
                    (VStr "#box") box_document).2
  = [mkWrite 1%positive "gridRow" "3 / 3";
     mkWrite 1%positive "gridColumn" "1 / 1"].
Proof. vm_compute. reflexivity. Qed.

(** ** The decimal text of a number, and what [parseInt] reads in it *)

Section Digits.

Local Open Scope N_scope.

Lemma digits_val_snoc ds d :
  digits_val (ds ++ [d]) = (10 * digits_val ds + d)%N.
Proof. unfold digits_val. rewrite fold_left_app. reflexivity. Qed.

Lemma digits_val_app a b :
  digits_val (a ++ b)
  = (digits_val a * 10 ^ N.of_nat (length b) + digits_val b)%N.
Proof.
  induction b as [|d b IH] using rev_ind.
  - rewrite app_nil_r. simpl. unfold digits_val at 3. simpl. lia.
  - rewrite app_assoc, !digits_val_snoc, IH, length_app. simpl.
    replace (N.of_nat (length b + 1)) with (N.succ (N.of_nat (length b)))
      by lia.
    rewrite N.pow_succ_r'. lia.
Qed.

Lemma digits_val_lt ds :
  all_digits ds -> (digits_val ds < 10 ^ N.of_nat (length ds))%N.
Proof.
  induction ds as [|d ds IH] using rev_ind; intros H.
  - vm_compute. reflexivity.
  - apply Forall_app in H as [H1 H2]. apply Forall_inv in H2.
    cbv beta in H2.
    rewrite digits_val_snoc, length_app. simpl.
    replace (N.of_nat (length ds + 1)) with (N.succ (N.of_nat (length ds)))
      by lia.
    rewrite N.pow_succ_r'. specialize (IH H1).
    set (P := (10 ^ N.of_nat (length ds))%N) in *. lia.
Qed.

Lemma digits_val_cons d ds :
  digits_val (d :: ds) = (d * 10 ^ N.of_nat (length ds) + digits_val ds)%N.
Proof.
  change (d :: ds) with ([d] ++ ds). rewrite digits_val_app. reflexivity.
Qed.

Lemma digits_val_ge d ds :
  d <> 0%N -> (10 ^ N.of_nat (length ds) <= digits_val (d :: ds))%N.
Proof. intros H. rewrite digits_val_cons. nia. Qed.

Lemma digits_aux_acc fuel n acc :
  digits_aux fuel n acc = digits_aux fuel n [] ++ acc.
Proof.
  revert n acc.
  induction fuel as [|fuel IH]; intros n acc; simpl; [reflexivity|].
  destruct (n =? 0)%N; [reflexivity|].
  rewrite IH, (IH _ [_]), <- app_assoc. reflexivity.
Qed.

Lemma digits_aux_fuel f1 f2 n acc :
  (n < 2 ^ N.of_nat f1)%N -> (n < 2 ^ N.of_nat f2)%N ->
  digits_aux f1 n acc = digits_aux f2 n acc.
Proof.
  revert f2 n acc. induction f1 as [|f1 IH]; intros f2 n acc H1 H2.
  - simpl in H1. assert (n = 0%N) as -> by lia. destruct f2; reflexivity.
  - simpl. destruct (n =? 0)%N eqn:Hn.
    + destruct f2; simpl; rewrite ?Hn; reflexivity.
    + apply N.eqb_neq in Hn. destruct f2 as [|f2].
      * simpl in H2. lia.
      * simpl. apply N.eqb_neq in Hn. rewrite Hn. apply IH.
        -- replace (N.of_nat (S f1)) with (N.succ (N.of_nat f1)) in H1 by lia.
           rewrite N.pow_succ_r' in H1.
           apply N.Div0.div_lt_upper_bound. lia.
        -- replace (N.of_nat (S f2)) with (N.succ (N.of_nat f2)) in H2 by lia.
           rewrite N.pow_succ_r' in H2.
           apply N.Div0.div_lt_upper_bound. lia.
Qed.

Lemma digits_of_step n :
  n <> 0%N -> digits_of n = digits_of (n / 10) ++ [(n mod 10)%N].
Proof.
  intros Hn. unfold digits_of at 1. simpl.
  apply N.eqb_neq in Hn as Hn'. rewrite Hn'.
  rewrite digits_aux_acc. f_equal.
  unfold digits_of. apply digits_aux_fuel.
  - rewrite N2Nat.id. apply N.Div0.div_lt_upper_bound.
    assert (0 < n)%N as Hpos by lia.
    pose proof (N.log2_spec n Hpos) as [_ H].
    rewrite N.pow_succ_r' in H. lia.
  - destruct (N.eq_dec (n / 10) 0) as [->|H0]; [vm_compute; reflexivity|].
    assert (0 < n / 10) as Hpos by (apply N.neq_0_lt_0; exact H0).
    pose proof (N.log2_spec (n / 10) Hpos) as [_ H].
    replace (N.of_nat (S (N.to_nat (N.log2 (n / 10)))))
      with (N.succ (N.log2 (n / 10))) by lia.
    exact H.
Qed.

Lemma digits_of_spec n :
  all_digits (digits_of n) /\ leading_nonzero (digits_of n) /\
  digits_val (digits_of n) = n.
Proof.
  induction n as [n IH] using (well_founded_induction N.lt_wf_0).
  destruct (N.eq_dec n 0) as [->|Hn].
  - repeat split. constructor.
  - rewrite digits_of_step by assumption.
    assert (n / 10 < n)%N as Hlt by (apply N.div_lt; lia).
    destruct (IH _ Hlt) as (H1 & H2 & H3).
    split; [|split].
    + apply Forall_app. split; [assumption|].
      constructor; [|constructor]. apply N.mod_lt. lia.
    + destruct (digits_of (n / 10)) as [|x a] eqn:Ha; simpl in *.
      * pose proof (N.div_mod' n 10). unfold digits_val in H3.
        simpl in H3. lia.
      * assumption.
    + rewrite digits_val_snoc, H3. pose proof (N.div_mod' n 10). lia.
Qed.

Lemma digits_val_0 ds :
  all_digits ds -> leading_nonzero ds -> digits_val ds = 0%N -> ds = [].
Proof.
  destruct ds as [|d ds]; [reflexivity|]. simpl. intros _ Hd H.
  pose proof (digits_val_ge d ds Hd) as Hge. rewrite H in Hge.
  assert (10 ^ N.of_nat (length ds) <> 0)%N by (apply N.pow_nonzero; lia).
  lia.
Qed.

Lemma leading_nonzero_app_l a b :
  leading_nonzero (a ++ b) -> leading_nonzero a.
Proof. destruct a; simpl; auto. Qed.

Lemma digits_of_val ds :
  all_digits ds -> leading_nonzero ds -> digits_of (digits_val ds) = ds.
Proof.
  induction ds as [|d a IH] using rev_ind; intros Hall Hlead; [reflexivity|].
  apply Forall_app in Hall as Hall'. destruct Hall' as [Ha Hd].
  apply Forall_inv in Hd. cbv beta in Hd.
  assert (digits_val (a ++ [d]) <> 0%N) as Hnz.
  { intros H0. apply digits_val_0 in H0; [|assumption..].
    destruct a; discriminate. }
  rewrite digits_of_step by assumption.
  rewrite digits_val_snoc.
  replace ((10 * digits_val a + d) / 10)%N with (digits_val a)
    by (apply N.div_unique with d; lia).
  replace ((10 * digits_val a + d) mod 10)%N with d
    by (apply N.mod_unique with (digits_val a); lia).
  rewrite IH; [reflexivity|assumption|].
  apply leading_nonzero_app_l with [d]. assumption.
Qed.

Lemma drop_zeros_spec l :
  exists z, l = replicate z 0%N ++ drop_zeros l /\
            leading_nonzero (drop_zeros l).
Proof.
  induction l as [|d l (z & Hz & Hl)];
    [exists 0%nat; split; [reflexivity|exact I]|].
  simpl. destruct (d =? 0)%N eqn:Hd.
  - apply N.eqb_eq in Hd as ->. exists (S z). simpl. rewrite <- Hz. auto.
  - apply N.eqb_neq in Hd. exists 0%nat. simpl. auto.
Qed.

Lemma rev_replicate {A} (n : nat) (x : A) :
  rev (replicate n x) = replicate n x.
Proof.
  induction n as [|n IH]; [reflexivity|]. simpl. rewrite IH.
  clear IH. induction n as [|n IH]; [reflexivity|].
  simpl. rewrite IH. reflexivity.
Qed.

Lemma strip_trailing_zeros_spec ds :
  ds = strip_trailing_zeros ds ++
       replicate (length ds - length (strip_trailing_zeros ds)) 0%N.
Proof.
  unfold strip_trailing_zeros.
  destruct (drop_zeros_spec (rev ds)) as (z & Hz & _).
  assert (ds = rev (drop_zeros (rev ds)) ++ replicate z 0%N) as Hds.
  { rewrite <- (rev_involutive ds) at 1. rewrite Hz at 1.
    rewrite rev_app_distr, rev_replicate. reflexivity. }
  assert (length ds = length (rev (drop_zeros (rev ds))) + z)%nat as Hlen.
  { rewrite Hds at 1. rewrite length_app, length_replicate. reflexivity. }
  replace (length ds - length (rev (drop_zeros (rev ds))))%nat with z by lia.
  exact Hds.
Qed.

Lemma strip_trailing_zeros_head d ds :
  d <> 0%N ->
  exists t, strip_trailing_zeros (d :: ds) = d :: t.
Proof.
  intros Hd. pose proof (strip_trailing_zeros_spec (d :: ds)) as H.
  destruct (strip_trailing_zeros (d :: ds)) as [|x t].
  - simpl in H. injection H as Hd' _. congruence.
  - injection H as Hd' _. subst x. eauto.
Qed.

Lemma append_cons c s t : String c s +:+ t = String c (s +:+ t).
Proof. reflexivity. Qed.

Lemma append_nil_l t : "" +:+ t = t.
Proof. reflexivity. Qed.

Lemma append_nil_r s : s +:+ "" = s.
Proof.
  induction s as [|c s IH]; [reflexivity|].
  rewrite append_cons, IH. reflexivity.
Qed.

Lemma string_of_digits_cons d ds :
  string_of_digits (d :: ds) = String (digit_char d) (string_of_digits ds).
Proof. reflexivity. Qed.

Lemma string_of_digits_app a b :
  string_of_digits (a ++ b) = string_of_digits a +:+ string_of_digits b.
Proof.
  induction a as [|d a IH]; [reflexivity|].
  rewrite <- app_comm_cons, !string_of_digits_cons, append_cons, IH.
  reflexivity.
Qed.

Lemma digit_cases d :
  d < 10 ->
  d = 0 \/ d = 1 \/ d = 2 \/ d = 3 \/ d = 4 \/ d = 5 \/ d = 6 \/ d = 7 \/
  d = 8 \/ d = 9.
Proof. lia. Qed.

(** Replaces a digit [d], known by [H : d < 10], by each of its ten values. *)
Ltac each_digit d H :=
  destruct (digit_cases d H)
    as [->|[->|[->|[->|[->|[->|[->|[->|[->| ->]]]]]]]]].

Lemma digit_value_digit_char d :
  d < 10 -> digit_value 10 (digit_char d) = Some d.
Proof. intros H. each_digit d H; reflexivity. Qed.

Lemma read_digits_digits ds rest a :
  all_digits ds ->
  read_digits 10 (string_of_digits ds +:+ rest) (Some a)
  = read_digits 10 rest (Some (fold_left (fun acc d => 10 * acc + d) ds a)).
Proof.
  revert a. induction ds as [|d ds IH]; intros a H; [reflexivity|].
  apply Forall_cons in H as [Hd H].
  rewrite string_of_digits_cons, append_cons. simpl.
  rewrite digit_value_digit_char by assumption.
  rewrite IH by assumption. reflexivity.
Qed.

Lemma read_digits_stops rest acc : stops rest -> read_digits 10 rest acc = acc.
Proof. intros [->|[r ->]]; reflexivity. Qed.

Lemma parseInt_string_digits (neg : bool) d ds rest :
  all_digits (d :: ds) -> d <> 0 -> stops rest ->
  parseInt_string ((if neg then "-" else "") +:+
                   string_of_digits (d :: ds) +:+ rest)
  = number_of_N neg (digits_val (d :: ds)).
Proof.
  intros H Hd Hrest. apply Forall_cons in H as [Hd10 H].
  assert (read_digits 10 (string_of_digits ds +:+ rest) (Some d)
          = Some (digits_val (d :: ds))) as Hread.
  { rewrite read_digits_digits, read_digits_stops by assumption.
    reflexivity. }
  rewrite string_of_digits_cons, append_cons.
  revert Hread. generalize (string_of_digits ds +:+ rest). intros Y Hread.
  each_digit d Hd10; try congruence;
    destruct neg; rewrite ?append_cons, ?append_nil_l;
    match goal with
    | |- context [digit_char ?d] =>
        let c := eval vm_compute in (digit_char d) in
        change (digit_char d) with c
    end;
    unfold parseInt_string; cbn -[digits_val];
    match goal with
    | |- context [digit_value 10 ?c] =>
        let v := eval vm_compute in (digit_value 10 c) in
        change (digit_value 10 c) with v
    end;
    cbn -[digits_val N.mul N.add]; rewrite N.mul_0_r, N.add_0_l, Hread;
    reflexivity.
Qed.

Lemma parseInt_string_zero_point (neg : bool) rest :
  parseInt_string ((if neg then "-" else "") +:+ "0." +:+ rest)
  = Zero neg.
Proof. destruct neg; reflexivity. Qed.

Lemma digits_val_replicate_0 j : digits_val (replicate j 0) = 0.
Proof.
  induction j as [|j IH]; [reflexivity|].
  simpl. rewrite digits_val_cons, IH. lia.
Qed.

Lemma strip_trailing_zeros_length ds :
  (length (strip_trailing_zeros ds) <= length ds)%nat.
Proof.
  pose proof (strip_trailing_zeros_spec ds) as H.
  apply (f_equal length) in H. rewrite length_app in H. lia.
Qed.

Lemma number_to_string_pos_int p :
  (length (digits_of (Npos p)) <= 21)%nat ->
  number_to_string_pos p 0 = string_of_digits (digits_of (Npos p)).
Proof.
  intros HL. unfold number_to_string_pos. cbv zeta.
  pose proof (strip_trailing_zeros_length (digits_of (Npos p))) as Hk.
  pose proof (strip_trailing_zeros_spec (digits_of (Npos p))) as Hs.
  set (ds0 := digits_of (Npos p)) in *.
  set (ds := strip_trailing_zeros ds0) in *.
  assert ((Z.of_nat (length ds) <=? 0 + Z.of_nat (length ds0))%Z &&
          (0 + Z.of_nat (length ds0) <=? 21)%Z = true) as ->.
  { apply andb_true_iff. split; apply Z.leb_le; lia. }
  unfold zeros. rewrite <- string_of_digits_app. f_equal.
  replace (Z.to_nat (0 + Z.of_nat (length ds0) - Z.of_nat (length ds)))
    with (length ds0 - length ds)%nat by lia.
  symmetry. exact Hs.
Qed.

Lemma toString_number_of_N (neg : bool) v :
  (length (digits_of v) <= 21)%nat ->
  toString (VNum (number_of_N neg v))
  = Z_text (if neg then (- Z.of_N v)%Z else Z.of_N v).
Proof.
  intros HL. destruct v as [|p]; [destruct neg; reflexivity|].
  destruct neg; simpl; rewrite number_to_string_pos_int by assumption;
    reflexivity.
Qed.

(** The number of digits of [m] against its size. *)
Lemma digits_of_length_bounds p :
  let L := Z.of_nat (length (digits_of (Npos p))) in
  (10 ^ (L - 1) <= Zpos p < 10 ^ L)%Z /\ (1 <= L)%Z.
Proof.
  cbv zeta. destruct (digits_of_spec (Npos p)) as (Hall & Hlead & Hval).
  destruct (digits_of (Npos p)) as [|d t] eqn:E; [discriminate|].
  simpl in Hlead.
  pose proof (digits_val_ge d t Hlead) as Hge.
  pose proof (digits_val_lt (d :: t) Hall) as Hlt.
  rewrite Hval in Hge, Hlt.
  apply N2Z.inj_le in Hge. apply N2Z.inj_lt in Hlt.
  rewrite N2Z.inj_pow in Hge, Hlt. rewrite nat_N_Z in Hge, Hlt.
  simpl length. split; [|lia].
  replace (Z.of_nat (S (length t)) - 1)%Z with (Z.of_nat (length t)) by lia.
  simpl in Hge, Hlt. split; assumption.
Qed.

Lemma parseInt_string_digits_end (neg : bool) d ds :
  all_digits (d :: ds) -> d <> 0 ->
  parseInt_string ((if neg then "-" else "") +:+ string_of_digits (d :: ds))
  = number_of_N neg (digits_val (d :: ds)).
Proof.
  intros H Hd.
  rewrite <- (parseInt_string_digits neg d ds "")
    by (auto; left; reflexivity).
  rewrite append_nil_r. reflexivity.
Qed.

Lemma number_to_string_sign (neg : bool) m e :
  number_to_string (Fin neg m e)
  = (if neg then "-" else "") +:+ number_to_string_pos m e.
Proof. destruct neg; reflexivity. Qed.

End Digits.

Lemma plain_range_point m e :
  10 ^ (- e - 6) <= Zpos m < 10 ^ (21 - e) ->
  -6 < e + Z.of_nat (length (digits_of (Npos m))) <= 21.
Proof.
  intros [Hlo Hhi].
  pose proof (digits_of_length_bounds m) as [[HL1 HL2] HL3]. cbv zeta in *.
  set (L := Z.of_nat (length (digits_of (Npos m)))) in *.
  split.
  - destruct (Z.lt_ge_cases (-6) (e + L)) as [|Hc]; [assumption|].
    assert (10 ^ L <= 10 ^ (- e - 6)) by (apply Z.pow_le_mono_r; lia). lia.
  - destruct (Z.le_gt_cases (e + L) 21) as [|Hc]; [assumption|].
    destruct (Z.lt_ge_cases (21 - e) 0) as [Hneg|Hpos].
    + rewrite Z.pow_neg_r in Hhi by assumption. lia.
    + assert (10 ^ (21 - e) <= 10 ^ (L - 1)) by (apply Z.pow_le_mono_r; lia).
      lia.
Qed.

Lemma parseInt_plain (neg : bool) (m : positive) (e : Z) :
  10 ^ (- e - 6) <= Zpos m < 10 ^ (21 - e) ->
  exists v : N,
    parseInt_string ((if neg then "-" else "") +:+ number_to_string_pos m e)
    = number_of_N neg v /\
    (length (digits_of v) <= 21)%nat /\
    Z.of_N v = if 0 <=? e then Zpos m * 10 ^ e else Zpos m / 10 ^ (- e).
Proof.
  intros Hrange. pose proof (plain_range_point m e Hrange) as [Hn6 Hn21].
  destruct (digits_of_spec (Npos m)) as (Hall & Hlead & Hval).
  pose proof (digits_of_length_bounds m) as [[HL1 HL2] HL3]. cbv zeta in *.
  unfold number_to_string_pos. cbv zeta.
  remember (digits_of (Npos m)) as ds0 eqn:E.
  destruct ds0 as [|d t]; [discriminate Hval|]. simpl in Hlead.
  destruct (strip_trailing_zeros_head d t Hlead) as [t' Hst].
  pose proof (strip_trailing_zeros_spec (d :: t)) as Hs.
  pose proof (strip_trailing_zeros_length (d :: t)) as Hk.
  rewrite Hst in Hs, Hk |- *.
  set (L := length (d :: t)) in *. set (k := length (d :: t')) in *.
  assert (Hall' : all_digits (d :: t')).
  { unfold all_digits in *. rewrite Hs in Hall.
    apply Forall_app in Hall as [? _]. assumption. }
  assert (HV : Zpos m = Z.of_N (digits_val (d :: t')) * 10 ^ Z.of_nat (L - k)).
  { change (Zpos m) with (Z.of_N (Npos m)). rewrite <- Hval. rewrite Hs at 1.
    rewrite digits_val_app, digits_val_replicate_0, length_replicate.
    rewrite N.add_0_r, N2Z.inj_mul, N2Z.inj_pow, nat_N_Z. reflexivity. }
  assert ((e + Z.of_nat L <=? 21) = true) as H21 by (apply Z.leb_le; lia).
  rewrite H21, !andb_true_r.
  destruct (Z.leb_spec (Z.of_nat k) (e + Z.of_nat L)) as [Hkn|Hkn].
  - (* an integer: the digits, then zeros *)
    set (j := Z.to_nat (e + Z.of_nat L - Z.of_nat k)).
    unfold zeros. rewrite <- string_of_digits_app, <- app_comm_cons.
    assert (HallD : all_digits (d :: t' ++ replicate j 0%N)).
    { rewrite app_comm_cons. apply Forall_app. split; [assumption|].
      apply Forall_replicate. reflexivity. }
    exists (digits_val (d :: t' ++ replicate j 0%N)).
    split; [apply parseInt_string_digits_end; assumption|].
    split.
    + rewrite digits_of_val by assumption. simpl.
      rewrite length_app, length_replicate.
      subst j k L. simpl in *. lia.
    + rewrite app_comm_cons, digits_val_app, digits_val_replicate_0.
      rewrite length_replicate.
      rewrite N.add_0_r, N2Z.inj_mul, N2Z.inj_pow, nat_N_Z.
      change (Z.of_N 10) with 10.
      assert (Hj : Z.of_nat j = e + Z.of_nat (L - k)) by (subst j; lia).
      rewrite HV, Hj.
      destruct (Z.leb_spec 0 e) as [He|He].
      * rewrite Z.pow_add_r by lia. ring.
      * replace (Z.of_nat (L - k)) with ((e + Z.of_nat (L - k)) + - e) at 2
          by lia.
        rewrite (Z.pow_add_r 10 (e + Z.of_nat (L - k)) (- e)) by lia.
        rewrite Z.mul_assoc, Z.div_mul; [reflexivity|].
        apply Z.pow_nonzero; lia.
  - destruct (Z.ltb_spec 0 (e + Z.of_nat L)) as [Hn0|Hn0].
    + (* a fraction with an integer part *)
      remember (Z.to_nat (e + Z.of_nat L)) as n' eqn:En.
      destruct n' as [|n'']; [lia|]. simpl (take _ _).
      assert (HallD : all_digits (d :: take n'' t')).
      { apply Forall_cons in Hall' as [? ?]. apply Forall_cons.
        split; [assumption|]. apply Forall_take. assumption. }
      exists (digits_val (d :: take n'' t')).
      split.
      { apply parseInt_string_digits; [assumption..|].
        right. eexists. reflexivity. }
      split.
      { rewrite digits_of_val by assumption. simpl. rewrite length_take. lia. }
      destruct (Z.leb_spec 0 e) as [He|He]; [subst k L; simpl in *; lia|].
      assert (Htake : take (S n'') (d :: t) = d :: take n'' t').
      { rewrite Hs. rewrite take_app_le by (subst k; simpl in *; lia).
        reflexivity. }
      pose proof (take_drop (S n'') (d :: t)) as Hsplit.
      rewrite Htake in Hsplit.
      assert (Hdrop : all_digits (drop (S n'') (d :: t)))
        by (apply Forall_drop; assumption).
      pose proof (digits_val_lt _ Hdrop) as Hlt.
      rewrite length_drop in Hlt. fold L in Hlt.
      apply Z.div_unique with (Z.of_N (digits_val (drop (S n'') (d :: t)))).
      * left. split; [lia|].
        apply N2Z.inj_lt in Hlt. rewrite N2Z.inj_pow, nat_N_Z in Hlt.
        change (Z.of_N 10) with 10 in Hlt.
        replace (- e) with (Z.of_nat (L - S n'')) by lia. exact Hlt.
      * change (Zpos m) with (Z.of_N (Npos m)). rewrite <- Hval.
        rewrite <- Hsplit at 1.
        rewrite digits_val_app, length_drop. fold L.
        rewrite N2Z.inj_add, N2Z.inj_mul, N2Z.inj_pow, nat_N_Z.
        change (Z.of_N 10) with 10.
        replace (- e) with (Z.of_nat (L - S n'')) by lia. ring.
    + (* a fraction below one *)
      assert ((-6 <? e + Z.of_nat L) && (e + Z.of_nat L <=? 0) = true) as ->.
      { apply andb_true_iff. split; [apply Z.ltb_lt|apply Z.leb_le]; lia. }
      exists 0%N. split; [apply parseInt_string_zero_point|].
      split; [simpl; lia|].
      destruct (Z.leb_spec 0 e) as [He|He]; [lia|].
      symmetry. apply Z.div_small. split; [lia|].
      assert (10 ^ Z.of_nat L <= 10 ^ (- e)) by (apply Z.pow_le_mono_r; lia).
      lia.
Qed.

(** From 0.000001 up to, and not including, 1e21 in size, the text of a
    number has no exponent, and what [`${parseInt(x)}`] renders is the
    numeral of the integer [x] truncates to. *)
Theorem parseInt_truncates (neg : bool) (m : positive) (e : Z) :
  10 ^ (- e - 6) <= Zpos m < 10 ^ (21 - e) ->
  exists z : Z,
    trunc (Fin neg m e) = Some z /\
    int_text (VNum (Fin neg m e)) = Z_text z.
Proof.
  intros Hrange.
  destruct (parseInt_plain neg m e Hrange) as (v & Hp & Hl & Hv).
  eexists. split; [reflexivity|].
  unfold int_text, parseInt.
  change (toString (VNum (Fin neg m e))) with (number_to_string (Fin neg m e)).
  rewrite number_to_string_sign, Hp, toString_number_of_N by assumption.
  rewrite Hv. reflexivity.
Qed.

(** C6: [parseInt] reads the decimal text of the number, and the text of
    0.0000005 is [5e-7]: the value truncates to 0, and is rendered as 5. *)
Theorem getPositionCss_small_fraction :
  trunc (Fin false 5 (-7)) = Some 0 /\
  toString (VNum (Fin false 5 (-7))) = "5e-7" /\
  getPositionCss (mkPositions (VNum (Fin false 5 (-7))) VUndefined
                              (num 1) VUndefined)
  = Return "{ grid-area: 5 / 1 / 5 / 1; }".
Proof. repeat split. Qed.

Example getPositionCss_large :
  trunc (Fin false 15 20) = Some 1500000000000000000000 /\
  getPositionCss (mkPositions (VNum (Fin false 15 20)) VUndefined
                              (num 1) VUndefined)
  = Return "{ grid-area: 1 / 1 / 1 / 1; }".
Proof. repeat split. Qed.

(** ** The operations that write to the document *)

Lemma lift_Throw {A B : Type} (r : result A) (k : A -> dom B) e doc :
  r = Throw e -> (lift r ≫= k) doc = (Throw e, doc).
Proof. intros ->. reflexivity. Qed.

Lemma lift_Return {A B : Type} (r : result A) (k : A -> dom B) a doc :
  r = Return a -> (lift r ≫= k) doc = k a doc.
Proof. intros ->. reflexivity. Qed.

(** C7: when the validation an operation starts with throws, so does the
    operation, with that error, and the document is left as it was: no
    style has been written. *)
Theorem failed_validation_writes_nothing
    (op : mutation) (id : value) (doc : document) (e : error) :
  validation op = Throw e ->
  run op id doc = (Throw e, doc) /\ sink (run op id doc).2 = sink doc.
Proof.
  intros H.
  assert (run op id doc = (Throw e, doc)) as ->; [|split; reflexivity].
  destruct op as [g|p|r|c|gap|gap]; simpl in H |- *;
    try (apply lift_Throw; assumption).
  unfold setPosition. rewrite positions_eta. apply lift_Throw.
  destruct (GridValidator.validatePositions p) as [p'|e']; [discriminate|].
  inversion H. reflexivity.
Qed.

Lemma failed_validation_writes_nothing_example :
  let op := SetGrid (mkGrid (VArr [VStr "1fr"; num 2]) VUndefined VUndefined
                            VUndefined) in
  let e := mkError TypeError "Value must be a string" in
  run op (VStr "#box") box_document = (Throw e, box_document) /\
  sink (run op (VStr "#box") box_document).2 = sink box_document.
Proof.
  cbv zeta.
  apply (failed_validation_writes_nothing
           (SetGrid (mkGrid (VArr [VStr "1fr"; num 2]) VUndefined VUndefined
                            VUndefined))
           (VStr "#box") box_document
           (mkError TypeError "Value must be a string")).
  reflexivity.
Defined.

Example setRowGap_failed_validation :
  setRowGap (VStr "-4px") (VStr "#box") box_document
  = (Throw (mkError TypeError
      "Gap values must be positvie numbers followed by a valid CSS measurement"),
     box_document).
Proof. reflexivity. Qed.

Example setGrid_writes :
  sink (setGrid (mkGrid (VArr [VStr "1fr"; VStr "2fr"]) VUndefined
                        (VStr "10px") VUndefined)
                (VStr "#box") box_document).2
  = [mkWrite 1%positive "display" "grid";
     mkWrite 1%positive "gridTemplateRows" "1fr 2fr";
     mkWrite 1%positive "gridTemplateColumns" "100%";
     mkWrite 1%positive "gridRowGap" "10px";
     mkWrite 1%positive "gridColumnGap" "0px"].
Proof. vm_compute. reflexivity. Qed.

(** C8: [setGrid({}, 5)]: the identifier is not a string, and what is
    thrown is an [Error], not a [TypeError]; nothing is written. *)
Theorem setGrid_number_identifier_Error (doc : document) :
  setGrid (mkGrid VUndefined VUndefined VUndefined VUndefined) (num 5) doc
  = (Throw (mkError Error "HTML element identifier must be a string"), doc)
  /\ Error <> TypeError.
Proof. split; [reflexivity|discriminate]. Qed.

(** ** Validating again *)








(* ===================================================================== *)
(** * Further properties of the generator *)
(* ===================================================================== *)

(** ** Assignments to styles *)

Lemma assign_style_missing id prop rhs doc :
  selected doc !! toString id = None ->
  assign_style id prop rhs doc
  = (Throw (mkError TypeError "Cannot read properties of null"), doc).
Proof. intros H. unfold assign_style. rewrite H. reflexivity. Qed.

Lemma dom_bind_Throw {A B : Type} (m : dom A) (k : A -> dom B) e doc doc' :
  m doc = (Throw e, doc') -> (m ≫= k) doc = (Throw e, doc').
Proof. intros H. unfold mbind, dom_bind. rewrite H. reflexivity. Qed.

Lemma truthy_string s : truthy (VStr s) = true <-> s <> "".
Proof. destruct s; simpl; split; congruence. Qed.

Lemma validatePositions_Return p p' :
  GridValidator.validatePositions p = Return p' -> p' = p.
Proof.
  unfold GridValidator.validatePositions. intros H.
  destruct (GridValidator.validate_position (startRow p)) as [[]|];
    [|discriminate].
  destruct (GridValidator.validate_position (endRow p)) as [[]|];
    [|discriminate].
  destruct (GridValidator.validate_position (startColumn p)) as [[]|];
    [|discriminate].
  destruct (GridValidator.validate_position (endColumn p)) as [[]|];
    [|discriminate].
  simpl in H. congruence.
Qed.

Lemma isString_VStr s : RowColumnValidator.isString (VStr s) = true.
Proof. reflexivity. Qed.

(** X1: on a grid that passes validation and whose track lists are
    arrays, with an identifier that is not empty, [setGrid] makes five
    assignments, each after looking the element up: [display] and, in
    the order of the block, the four values that [getGridCss] renders for
    the same grid. *)
Theorem setGrid_assigns_what_getGridCss_renders
    (g : grid) (rs cs : list value) (s : string) (doc : document) :
  GridValidator.validateAllParams (with_defaults g) = Return tt ->
  rows (with_defaults g) = VArr rs ->
  columns (with_defaults g) = VArr cs ->
  s <> "" ->
  let r := join " " rs in
  let c := join " " cs in
  let rg := toString (rowGap (with_defaults g)) in
  let cg := toString (columnGap (with_defaults g)) in
  getGridCss g = Return (grid_block r c rg cg) /\
  setGrid g (VStr s) doc
  = (assign_style (VStr s) "display" (Return "grid") ;;
     assign_style (VStr s) "gridTemplateRows" (Return r) ;;
     assign_style (VStr s) "gridTemplateColumns" (Return c) ;;
     assign_style (VStr s) "gridRowGap" (Return rg) ;;
     assign_style (VStr s) "gridColumnGap" (Return cg)) doc.
Proof.
  intros Hv Hr Hc Hs. cbv zeta. split.
  - unfold getGridCss. rewrite Hv, Hr, Hc. reflexivity.
  - unfold setGrid. rewrite (lift_Return _ _ tt) by assumption.
    rewrite isString_VStr. change (negb true) with false. cbv iota.
    apply truthy_string in Hs. rewrite Hs, Hr, Hc. reflexivity.
Qed.

(** X2: on a placement spec with both start values truthy,
    [setPosition] makes two assignments, each after looking the element
    up: [gridRow = r1 / r2] and [gridColumn = c1 / c2], with the four
    values of the block [getPositionCss] returns for the same spec. *)
Theorem setPosition_assigns_what_getPositionCss_renders
    (p : positions) (id : value) (doc : document) :
  placement_spec p = true ->
  truthy (startRow p) = true -> truthy (startColumn p) = true ->
  let r1 := int_text (startRow p) in
  let c1 := int_text (startColumn p) in
  let r2 := end_text (startRow p) (endRow p) in
  let c2 := end_text (startColumn p) (endColumn p) in
  getPositionCss p = Return (placement_block r1 c1 r2 c2) /\
  setPosition p id doc
  = (assign_style id "gridRow" (Return (r1 +:+ " / " +:+ r2)) ;;
     assign_style id "gridColumn" (Return (c1 +:+ " / " +:+ c2))) doc.
Proof.
  intros Hp Hsr Hsc. cbv zeta.
  rewrite getPositionCss_spec, setPosition_spec by assumption.
  rewrite Hsr, Hsc. split; reflexivity.
Qed.

(** X5: on a grid that passes validation and an identifier that is not
    empty, [setGrid] does what setting [display] and then calling
    [setRows], [setColumns], [setRowGap] and [setColumnGap] with the
    grid's values does: the same result and the same document. *)
Theorem setGrid_is_its_setters (g : grid) (s : string) (doc : document) :
  GridValidator.validateAllParams (with_defaults g) = Return tt ->
  s <> "" ->
  let gp := with_defaults g in
  setGrid g (VStr s) doc
  = (assign_style (VStr s) "display" (Return "grid") ;;
     setRows (rows gp) (VStr s) ;;
     setColumns (columns gp) (VStr s) ;;
     setRowGap (rowGap gp) (VStr s) ;;
     setColumnGap (columnGap gp) (VStr s)) doc.
Proof.
  intros Hv Hs. cbv zeta.
  destruct (validateAllParams_Return _ Hv) as (H1 & H2 & H3 & H4).
  apply truthy_string in Hs.
  unfold setGrid, setRows, setColumns, setRowGap, setColumnGap,
    GridValidator.isString.
  rewrite Hv, H1, H2, H3, H4, isString_VStr, Hs.
  reflexivity.
Qed.

(** X6: when the identifier is a string that selects no element, an
    operation whose validation passed and that gets as far as an
    assignment throws the [TypeError] of reading [style] off [null], and
    the document is as it was. *)
Theorem missing_element_throws (op : mutation) (s : string) (doc : document) :
  validation op = Return tt ->
  attempts_write op (VStr s) = true ->
  selected doc !! s = None ->
  run op (VStr s) doc
  = (Throw (mkError TypeError "Cannot read properties of null"), doc).
Proof.
  intros Hv Ha Hel.
  destruct op as [g|p|r|c|gap|gap]; cbn [run validation attempts_write] in *.
  - unfold setGrid. rewrite (lift_Return _ _ tt) by assumption.
    rewrite isString_VStr, Ha. change (negb true) with false. cbv iota.
    apply dom_bind_Throw. apply assign_style_missing. assumption.
  - unfold setPosition. rewrite positions_eta.
    destruct (GridValidator.validatePositions p) as [p'|e] eqn:Hp;
      [|discriminate].
    apply validatePositions_Return in Hp as ->.
    rewrite (lift_Return _ _ p) by reflexivity. rewrite Ha.
    apply dom_bind_Throw. apply assign_style_missing. assumption.
  - unfold setRows. rewrite (lift_Return _ _ tt) by assumption.
    simpl. apply assign_style_missing. assumption.
  - unfold setColumns. rewrite (lift_Return _ _ tt) by assumption.
    simpl. apply assign_style_missing. assumption.
  - unfold setRowGap. rewrite (lift_Return _ _ tt) by assumption.
    simpl. apply assign_style_missing. assumption.
  - unfold setColumnGap. rewrite (lift_Return _ _ tt) by assumption.
    simpl. apply assign_style_missing. assumption.
Qed.

(** X13: an operation whose validation passed and that has nothing to
    assign returns and leaves the document as it was, without looking the
    element up: [setGrid] with the empty identifier, [setPosition] with a
    start value that is missing, 0 or NaN. *)
Theorem skipped_operation_returns
    (op : mutation) (s : string) (doc : document) :
  validation op = Return tt ->
  attempts_write op (VStr s) = false ->
  run op (VStr s) doc = (Return tt, doc).
Proof.
  intros Hv Ha.
  destruct op as [g|p|r|c|gap|gap]; cbn [run validation attempts_write] in *;
    try discriminate.
  - unfold setGrid. rewrite (lift_Return _ _ tt) by assumption.
    rewrite isString_VStr, Ha. reflexivity.
  - unfold setPosition. rewrite positions_eta.
    destruct (GridValidator.validatePositions p) as [p'|e] eqn:Hp;
      [|discriminate].
    apply validatePositions_Return in Hp as ->.
    rewrite (lift_Return _ _ p) by reflexivity. rewrite Ha. reflexivity.
Qed.

Lemma setGrid_assigns_example :
  let g := mkGrid (VArr [VStr "1fr"; VStr "2fr"]) VUndefined (VStr "10px")
                  VUndefined in
  getGridCss g = Return (grid_block "1fr 2fr" "100%" "10px" "0px") /\
  setGrid g (VStr "#box") box_document
  = (assign_style (VStr "#box") "display" (Return "grid") ;;
     assign_style (VStr "#box") "gridTemplateRows" (Return "1fr 2fr") ;;
     assign_style (VStr "#box") "gridTemplateColumns" (Return "100%") ;;
     assign_style (VStr "#box") "gridRowGap" (Return "10px") ;;
     assign_style (VStr "#box") "gridColumnGap" (Return "0px")) box_document.
Proof.
  cbv zeta.
  apply (setGrid_assigns_what_getGridCss_renders
           (mkGrid (VArr [VStr "1fr"; VStr "2fr"]) VUndefined (VStr "10px")
                   VUndefined)
           [VStr "1fr"; VStr "2fr"] [VStr "100%"] "#box" box_document);
    [reflexivity | reflexivity | reflexivity | discriminate].
Defined.

Lemma setPosition_assigns_example :
  let p := mkPositions (num 2) VUndefined (num 1) (num 3) in
  getPositionCss p = Return (placement_block "2" "1" "2" "3") /\
  setPosition p (VStr "#box") box_document
  = (assign_style (VStr "#box") "gridRow" (Return "2 / 2") ;;
     assign_style (VStr "#box") "gridColumn" (Return "1 / 3")) box_document.
Proof.
  cbv zeta.
  apply (setPosition_assigns_what_getPositionCss_renders
           (mkPositions (num 2) VUndefined (num 1) (num 3)) (VStr "#box")
           box_document); reflexivity.
Defined.

Lemma setGrid_is_its_setters_example :
  let g := mkGrid (VArr [VStr "1fr"]) VUndefined VUndefined (VStr "2px") in
  let gp := with_defaults g in
  setGrid g (VStr "#box") box_document
  = (assign_style (VStr "#box") "display" (Return "grid") ;;
     setRows (rows gp) (VStr "#box") ;;
     setColumns (columns gp) (VStr "#box") ;;
     setRowGap (rowGap gp) (VStr "#box") ;;
     setColumnGap (columnGap gp) (VStr "#box")) box_document.
Proof.
  cbv zeta.
  apply (setGrid_is_its_setters
           (mkGrid (VArr [VStr "1fr"]) VUndefined VUndefined (VStr "2px"))
           "#box" box_document); [reflexivity | discriminate].
Defined.

Lemma missing_element_throws_example :
  run (SetRowGap (VStr "4px")) (VStr "#nothing") box_document
  = (Throw (mkError TypeError "Cannot read properties of null"),
     box_document).
Proof.
  apply (missing_element_throws (SetRowGap (VStr "4px")) "#nothing"
           box_document); reflexivity.
Defined.

Lemma skipped_operation_returns_example :
  run (SetGrid (mkGrid VUndefined VUndefined VUndefined VUndefined))
      (VStr "") box_document = (Return tt, box_document).
Proof.
  apply (skipped_operation_returns
           (SetGrid (mkGrid VUndefined VUndefined VUndefined VUndefined))
           "" box_document); reflexivity.
Defined.

(** ** What [parseInt] makes of every number *)

Lemma int_text_plain x : plain x -> int_text (VNum x) = trunc_text x.
Proof.
  destruct x as [| | |neg m e]; simpl; try contradiction. intros H.
  destruct (parseInt_truncates neg m e H) as (z & Hz & Ht).
  unfold trunc_text. rewrite Hz. exact Ht.
Qed.

Lemma plain_truthy x : plain x -> truthy (VNum x) = true.
Proof. destruct x; simpl; try contradiction. reflexivity. Qed.

Lemma exponent_point m e :
  Zpos m < 10 ^ (- e - 6) \/ 10 ^ (21 - e) <= Zpos m ->
  let n := e + Z.of_nat (length (digits_of (Npos m))) in
  n <= -6 \/ 21 < n.
Proof.
  intros H. cbv zeta.
  pose proof (digits_of_length_bounds m) as [[HL1 HL2] HL3]. cbv zeta in *.
  set (L := Z.of_nat (length (digits_of (Npos m)))) in *.
  destruct H as [H|H].
  - left. destruct (Z.le_gt_cases (e + L) (-6)) as [|Hc]; [assumption|].
    destruct (Z.lt_ge_cases (- e - 6) 0) as [Hneg|Hpos].
    + rewrite Z.pow_neg_r in H by assumption. lia.
    + assert (10 ^ (- e - 6) <= 10 ^ (L - 1))
        by (apply Z.pow_le_mono_r; lia). lia.
  - right. destruct (Z.lt_ge_cases 21 (e + L)) as [|Hc]; [assumption|].
    assert (10 ^ L <= 10 ^ (21 - e)) by (apply Z.pow_le_mono_r; lia). lia.
Qed.

Lemma digit_is_one_of d :
  (d < 10)%N ->
  d = 0%N \/ d = 1%N \/ d = 2%N \/ d = 3%N \/ d = 4%N \/ d = 5%N \/
  d = 6%N \/ d = 7%N \/ d = 8%N \/ d = 9%N.
Proof. lia. Qed.

(** [parseInt] on a text that starts with one digit and goes on with a
    character that is not a digit. *)
Lemma parseInt_string_one_digit (neg : bool) d c rest :
  (d < 10)%N -> d <> 0%N -> digit_value 10 c = None ->
  parseInt_string ((if neg then "-" else "") +:+
                   String (digit_char d) (String c rest))
  = number_of_N neg d.
Proof.
  intros Hd10 Hd Hc.
  destruct (digit_is_one_of d Hd10)
    as [->|[->|[->|[->|[->|[->|[->|[->|[->| ->]]]]]]]]];
    try congruence;
    destruct neg; rewrite ?append_cons, ?append_nil_l;
    match goal with
    | |- context [digit_char ?d] =>
        let c := eval vm_compute in (digit_char d) in
        change (digit_char d) with c
    end;
    unfold parseInt_string; cbn -[digit_value];
    match goal with
    | |- context [digit_value 10 ?c] =>
        let v := eval vm_compute in (digit_value 10 c) in
        change (digit_value 10 c) with v
    end;
    cbn -[digit_value]; rewrite Hc; reflexivity.
Qed.

Lemma digits_of_digit d : (d < 10)%N -> d <> 0%N -> digits_of d = [d].
Proof.
  intros H10 H0.
  assert (digits_val [d] = d) as Hv by (unfold digits_val; simpl; lia).
  rewrite <- Hv at 1. apply digits_of_val.
  - constructor; [assumption|constructor].
  - exact H0.
Qed.

Lemma int_text_exponent (neg : bool) m e :
  Zpos m < 10 ^ (- e - 6) \/ 10 ^ (21 - e) <= Zpos m ->
  int_text (VNum (Fin neg m e)) = Z_text (leading_digit neg m).
Proof.
  intros H. pose proof (exponent_point m e H) as Hn. cbv zeta in Hn.
  destruct (digits_of_spec (Npos m)) as (Hall & Hlead & Hval).
  unfold int_text, parseInt, leading_digit.
  change (toString (VNum (Fin neg m e))) with (number_to_string (Fin neg m e)).
  rewrite number_to_string_sign. unfold number_to_string_pos. cbv zeta.
  remember (digits_of (Npos m)) as ds0 eqn:E.
  destruct ds0 as [|d t]; [discriminate Hval|]. simpl in Hlead.
  destruct (strip_trailing_zeros_head d t Hlead) as [t' Hst].
  pose proof (strip_trailing_zeros_length (d :: t)) as Hk.
  rewrite Hst in Hk |- *.
  apply Forall_cons in Hall as [Hd10 _].
  set (L := length (d :: t)) in *. set (k := length (d :: t')) in *.
  assert (1 <= Z.of_nat k) by (subst k; simpl; lia).
  assert ((Z.of_nat k <=? e + Z.of_nat L) && (e + Z.of_nat L <=? 21) = false)
    as ->.
  { apply andb_false_iff.
    destruct Hn; [left; apply Z.leb_gt|right; apply Z.leb_gt]; lia. }
  assert ((0 <? e + Z.of_nat L) && (e + Z.of_nat L <=? 21) = false) as ->.
  { apply andb_false_iff.
    destruct Hn; [left; apply Z.ltb_ge|right; apply Z.leb_gt]; lia. }
  assert ((-6 <? e + Z.of_nat L) && (e + Z.of_nat L <=? 0) = false) as ->.
  { apply andb_false_iff.
    destruct Hn; [left; apply Z.ltb_ge|right; apply Z.leb_gt]; lia. }
  simpl hd.
  assert (toString (VNum (number_of_N neg d))
          = Z_text (if neg then - Z.of_N d else Z.of_N d)) as Htext.
  { apply toString_number_of_N. rewrite digits_of_digit by assumption.
    simpl. lia. }
  destruct t' as [|d' t''].
  - rewrite string_of_digits_cons. simpl (string_of_digits []).
    rewrite !append_cons, append_nil_l.
    rewrite parseInt_string_one_digit by (assumption || reflexivity).
    exact Htext.
  - rewrite (string_of_digits_cons d []). simpl (string_of_digits []).
    rewrite !append_cons, append_nil_l.
    rewrite parseInt_string_one_digit by (assumption || reflexivity).
    exact Htext.
Qed.

Lemma int_text_infinite b : int_text (VNum (Inf b)) = "NaN".
Proof. destruct b; reflexivity. Qed.

Lemma int_text_integer_or_NaN x :
  truthy (VNum x) = true -> integer_or_NaN (int_text (VNum x)).
Proof.
  destruct x as [|b|b|neg m e]; simpl; try discriminate; intros _.
  - left. apply int_text_infinite.
  - right.
    destruct (Z.le_gt_cases (10 ^ (- e - 6)) (Zpos m)) as [Hlo|Hlo];
      [destruct (Z.lt_ge_cases (Zpos m) (10 ^ (21 - e))) as [Hhi|Hhi]|].
    + destruct (parseInt_truncates neg m e (conj Hlo Hhi)) as (z & _ & Hz).
      eauto.
    + rewrite int_text_exponent by (right; assumption). eauto.
    + rewrite int_text_exponent by (left; assumption). eauto.
Qed.

Lemma end_text_integer_or_NaN x v :
  truthy (VNum x) = true -> placement_field v = true ->
  integer_or_NaN (end_text (VNum x) v).
Proof.
  intros Hx Hv. unfold end_text.
  destruct (truthy v) eqn:Ht; simpl.
  - destruct v; try discriminate. apply int_text_integer_or_NaN. assumption.
  - apply int_text_integer_or_NaN. assumption.
Qed.

Lemma plain_integer (neg : bool) p : Zpos p < 10 ^ 21 -> plain (Fin neg p 0).
Proof.
  intros H. unfold plain.
  change (- 0 - 6) with (-6). change (21 - 0) with 21.
  change (10 ^ (-6)) with 0. lia.
Qed.

Lemma int_text_integer z :
  z <> 0 -> Z.abs z < 10 ^ 21 -> int_text (num z) = Z_text z.
Proof.
  intros Hz Hb. destruct z as [|p|p]; [congruence| |]; unfold num;
    rewrite int_text_plain by (apply plain_integer; exact Hb);
    unfold trunc_text, trunc; change (0 <=? 0) with true; cbv iota;
    change (10 ^ 0) with 1; rewrite Z.mul_1_r; reflexivity.
Qed.

(** X9: when all four placement values are numbers from 0.000001 up
    to, and not including, 1e21 in size, [getPositionCss] returns the
    block of the four integers they truncate to (toward zero). *)
Theorem getPositionCss_truncates (sr er sc ec : number) :
  plain sr -> plain er -> plain sc -> plain ec ->
  getPositionCss (mkPositions (VNum sr) (VNum er) (VNum sc) (VNum ec))
  = Return (placement_block (trunc_text sr) (trunc_text sc)
                            (trunc_text er) (trunc_text ec)).
Proof.
  intros Hsr Her Hsc Hec.
  rewrite getPositionCss_spec by reflexivity.
  cbn [startRow endRow startColumn endColumn]. unfold end_text.
  rewrite !plain_truthy by assumption. simpl.
  rewrite !int_text_plain by assumption. reflexivity.
Qed.

(** X10: for integer line numbers other than 0 and below 2^53 in size,
    negative ones included, [getPositionCss] returns the block with the
    four numbers as they were given. *)
Theorem getPositionCss_safe_integers (a b c d : Z) :
  a <> 0 -> b <> 0 -> c <> 0 -> d <> 0 ->
  Z.abs a < 2 ^ 53 -> Z.abs b < 2 ^ 53 ->
  Z.abs c < 2 ^ 53 -> Z.abs d < 2 ^ 53 ->
  getPositionCss (mkPositions (num a) (num c) (num b) (num d))
  = Return (placement_block (Z_text a) (Z_text b) (Z_text c) (Z_text d)).
Proof.
  intros Ha Hb Hc Hd Ba Bb Bc Bd.
  assert (2 ^ 53 < 10 ^ 21) as Hpow by reflexivity.
  assert (forall z, z <> 0 -> truthy (num z) = true) as Ht
    by (intros [|p|p] Hz; [congruence|reflexivity..]).
  rewrite getPositionCss_spec by (destruct a, b, c, d; reflexivity).
  cbn [startRow endRow startColumn endColumn]. unfold end_text.
  rewrite !Ht by assumption. simpl.
  rewrite !int_text_integer by (assumption || lia). reflexivity.
Qed.

(** X11: a start row below 0.000001 or from 1e21 on in size is rendered
    as its first significant digit, with its sign: the exponent form of
    its text ends what [parseInt] reads after one digit. *)
Theorem getPositionCss_exponent_form
    (neg : bool) (m : positive) (e : Z) (y : number) :
  Zpos m < 10 ^ (- e - 6) \/ 10 ^ (21 - e) <= Zpos m ->
  truthy (VNum y) = true ->
  getPositionCss (mkPositions (VNum (Fin neg m e)) VUndefined
                              (VNum y) VUndefined)
  = Return (placement_block (Z_text (leading_digit neg m))
                            (int_text (VNum y))
                            (Z_text (leading_digit neg m))
                            (int_text (VNum y))).
Proof.
  intros H Hy. rewrite getPositionCss_spec by reflexivity.
  cbn [startRow endRow startColumn endColumn]. rewrite Hy.
  unfold end_text. simpl. rewrite int_text_exponent by assumption.
  reflexivity.
Qed.

(** X12: for every placement spec [getPositionCss] returns the empty
    string or a block whose four values are integer numerals or [NaN]
    (for an infinite value): a fraction or an exponent is never
    rendered. *)
Theorem getPositionCss_renders_integers_or_NaN (p : positions) :
  placement_spec p = true ->
  getPositionCss p = Return "" \/
  exists r1 c1 r2 c2 : string,
    getPositionCss p = Return (placement_block r1 c1 r2 c2) /\
    integer_or_NaN r1 /\ integer_or_NaN c1 /\
    integer_or_NaN r2 /\ integer_or_NaN c2.
Proof.
  intros Hp. rewrite getPositionCss_spec by assumption.
  destruct p as [sr er sc ec]. unfold placement_spec in Hp.
  cbn [startRow endRow startColumn endColumn] in *.
  apply andb_true_iff in Hp as [Hp Hec].
  apply andb_true_iff in Hp as [Hp Hsc].
  apply andb_true_iff in Hp as [Hsr Her].
  destruct (truthy sr) eqn:Tsr; [|left; reflexivity].
  destruct (truthy sc) eqn:Tsc; [|left; reflexivity].
  right. destruct sr as [| | |x| |]; try discriminate.
  destruct sc as [| | |y| |]; try discriminate.
  do 4 eexists. split; [reflexivity|].
  repeat split;
    auto using int_text_integer_or_NaN, end_text_integer_or_NaN.
Qed.

Lemma getPositionCss_truncates_example :
  getPositionCss (mkPositions (VNum (Fin false 19 (-1)))
                              (VNum (Fin false 39 (-1)))
                              (VNum (Fin false 21 (-1)))
                              (VNum (Fin true 5 (-1))))
  = Return (placement_block "1" "2" "3" "0").
Proof.
  apply (getPositionCss_truncates (Fin false 19 (-1)) (Fin false 39 (-1))
           (Fin false 21 (-1)) (Fin true 5 (-1)));
    simpl; lia.
Defined.

Lemma getPositionCss_safe_integers_example :
  getPositionCss (mkPositions (num 2) (num (-1)) (num 1) (num 12))
  = Return (placement_block "2" "1" "-1" "12").
Proof.
  apply (getPositionCss_safe_integers 2 1 (-1) 12); lia.
Defined.

Lemma getPositionCss_exponent_form_example :
  getPositionCss (mkPositions (VNum (Fin false 15 20)) VUndefined
                              (num 1) VUndefined)
  = Return (placement_block "1" "1" "1" "1").
Proof.
  apply (getPositionCss_exponent_form false 15 20 (Fin false 1 0));
    [right; simpl; lia | reflexivity].
Defined.

Lemma getPositionCss_renders_integers_or_NaN_example :
  getPositionCss (mkPositions (VNum (Inf false)) VUndefined (num 1)
                              VUndefined) = Return "" \/
  exists r1 c1 r2 c2 : string,
    getPositionCss (mkPositions (VNum (Inf false)) VUndefined (num 1)
                                VUndefined)
    = Return (placement_block r1 c1 r2 c2) /\
    integer_or_NaN r1 /\ integer_or_NaN c1 /\
    integer_or_NaN r2 /\ integer_or_NaN c2.
Proof.
  apply (getPositionCss_renders_integers_or_NaN
           (mkPositions (VNum (Inf false)) VUndefined (num 1) VUndefined)).
  reflexivity.
Defined.
